(** * authsession: Google OAuth2 login and cookie sessions (sessions.go)

    A shallow embedding of the handlers of [sessions.go] and the properties
    of the authentication state machine: state-token handling, the callback
    pipeline, the authorization gate and logout.

    The handlers are written in a small state monad over the three things a
    Go handler of this package can touch: the shared [*Auth] value, the
    [http.ResponseWriter] of the request and a trace of the calls made to
    the outside world.  Everything the package calls but does not define
    (crypto/rand, the oauth2 client, net/http's client, encoding/json,
    securecookie) is an oracle of the environment record [Env]. *)

From Stdlib Require Import ZArith NArith String Ascii List Bool Lia.
From stdpp Require Import base strings gmap.
Import ListNotations.
Open Scope string_scope.

(** ** encoding/base64: [base64.URLEncoding.EncodeToString] *)

Module Base64.

Definition encodeURL : string :=
  "ABCDEFGHIJKLMNOPQRSTUVWXYZabcdefghijklmnopqrstuvwxyz0123456789-_".

Definition StdPadding : ascii := "="%char.

(** [enc.encode[v & 0x3F]] *)
Definition encodeChar (v : N) : ascii :=
  match String.get (N.to_nat (N.land v 63)) encodeURL with
  | Some c => c
  | None => StdPadding
  end.

Definition u (b : Byte.byte) : N := Byte.to_N b.

(** Three source bytes give four characters; a remainder of one or two
    bytes is padded. *)
Fixpoint EncodeToString (src : list Byte.byte) : string :=
  match src with
  | [] => ""
  | [b0] =>
      let val := N.shiftl (u b0) 16 in
      String (encodeChar (N.shiftr val 18))
        (String (encodeChar (N.shiftr val 12))
           (String StdPadding (String StdPadding "")))
  | [b0; b1] =>
      let val := N.lor (N.shiftl (u b0) 16) (N.shiftl (u b1) 8) in
      String (encodeChar (N.shiftr val 18))
        (String (encodeChar (N.shiftr val 12))
           (String (encodeChar (N.shiftr val 6)) (String StdPadding "")))
  | b0 :: b1 :: b2 :: rest =>
      let val :=
        N.lor (N.lor (N.shiftl (u b0) 16) (N.shiftl (u b1) 8)) (u b2) in
      String (encodeChar (N.shiftr val 18))
        (String (encodeChar (N.shiftr val 12))
           (String (encodeChar (N.shiftr val 6))
              (String (encodeChar val) (EncodeToString rest))))
  end.

End Base64.

(** ** Data *)

(** A Go [error]: [nil] or a message. *)
Definition error : Type := option string.

Definition isErr (e : error) : bool :=
  match e with Some _ => true | None => false end.

(** The [interface{}] values this package and its clients put in
    [session.Values]. *)
Inductive Value : Type :=
| VBool (b : bool)
| VString (s : string)
| VInt (z : Z).

(** [v.(bool)]: the value and the [ok] flag of the type assertion; a
    missing key is the nil interface, whose assertion fails too. *)
Definition assertBool (v : option Value) : bool * bool :=
  match v with
  | Some (VBool b) => (b, true)
  | _ => (false, false)
  end.

(** [sessions.Options]; only the lifetime matters here. *)
Record Options : Type := { MaxAge : Z }.

(** [sessions.Session]. *)
Record Session : Type := {
  Name : string;
  Values : gmap string Value;
  SOptions : Options;
  IsNew : bool
}.

(** [sessions.CookieStore]: the signing key and the default options that
    [sessions.NewCookieStore] installs (thirty days). *)
Record CookieStore : Type := {
  storeKey : string;
  storeOptions : Options
}.

Definition NewCookieStore (key : string) : CookieStore :=
  {| storeKey := key; storeOptions := {| MaxAge := 86400 * 30 |} |}.

(** A cookie as the server sees it: either it decodes under the store's
    key to a bag of values, or its integrity check fails. *)
Inductive CookieBlob : Type :=
| Sealed (v : gmap string Value)
| Malformed.

(** [http.Request]: the form parameters and the cookies sent. *)
Record Request : Type := {
  form : list (string * string);
  cookies : gmap string CookieBlob
}.

(** [r.FormValue(key)]: the first value of the key, or the empty string. *)
Fixpoint FormValue' (f : list (string * string)) (key : string) : string :=
  match f with
  | [] => ""
  | (k, v) :: rest => if String.eqb k key then v else FormValue' rest key
  end.

Definition FormValue (r : Request) (key : string) : string :=
  FormValue' (form r) key.

(** [oauth2.Token] and its method [Valid]; a nil token is not valid. *)
Record Token : Type := {
  AccessToken : string;
  Expiry : option Z
}.

Definition expiryDelta : Z := 10.

Definition expired (now : Z) (t : Token) : bool :=
  match Expiry t with
  | None => false
  | Some e => (e - expiryDelta <? now)%Z
  end.

Definition Valid (now : Z) (t : option Token) : bool :=
  match t with
  | None => false
  | Some t => negb (String.eqb (AccessToken t) "") && negb (expired now t)
  end.

(** [oauth2.Config]. *)
Record Config : Type := {
  RedirectURL : string;
  ClientID : string;
  ClientSecret : string;
  Scopes : list string;
  Endpoint : string * string
}.

Definition googleEndpoint : string * string :=
  ("https://accounts.google.com/o/oauth2/auth",
   "https://oauth2.googleapis.com/token").

Definition newOauthConfig (proto host port clientIDKey clientSecret : string)
  : Config :=
  {| RedirectURL := proto ++ "://" ++ host ++ ":" ++ port ++ "/callback";
     ClientID := clientIDKey;
     ClientSecret := clientSecret;
     Scopes := [ "https://www.googleapis.com/auth/userinfo.email";
                 "https://www.googleapis.com/auth/userinfo.profile" ];
     Endpoint := googleEndpoint |}.

(** [Auth]: the value shared by all handlers. *)
Record Auth : Type := {
  googleOauthConfig : Config;
  oauthStateString : string;
  store : CookieStore
}.

Definition NewAuth (proto host port cookieStoreKey clientIDKey clientSecret
                    : string) : Auth * CookieStore :=
  let store := NewCookieStore cookieStoreKey in
  ({| googleOauthConfig :=
        newOauthConfig proto host port clientIDKey clientSecret;
      oauthStateString := "";
      store := store |}, store).

(** The anonymous struct the profile is decoded into. *)
Record UserInfo : Type := {
  ID : string;
  Email : string;
  VerifiedEmail : bool;
  Picture : string;
  FullName : string;
  FirstName : string;
  LastName : string
}.

Definition zeroUserInfo : UserInfo :=
  {| ID := ""; Email := ""; VerifiedEmail := false; Picture := "";
     FullName := ""; FirstName := ""; LastName := "" |}.

(** ** The response writer

    What reaches the client: the status line, the Location header, the
    cookies set and the text of an [http.Error]; the HTML body that
    [http.Redirect] adds is not recorded.  As in net/http the first
    [WriteHeader] wins and headers added after it are not sent.  A handler
    that returns without writing gets the server's implicit 200. *)

Record SetCookie : Type := {
  scName : string;
  scValues : gmap string Value;
  scOptions : Options
}.

Record Response : Type := {
  status : option Z;
  location : option string;
  setCookies : list SetCookie;
  body : string
}.

Definition emptyResponse : Response :=
  {| status := None; location := None; setCookies := []; body := "" |}.

Definition StatusOK : Z := 200.
Definition StatusTemporaryRedirect : Z := 307.
Definition StatusForbidden : Z := 403.

Definition sentStatus (w : Response) : Z :=
  match status w with Some c => c | None => StatusOK end.

Definition writeRedirect (url : string) (code : Z) (w : Response) : Response :=
  match status w with
  | Some _ => w
  | None =>
      {| status := Some code; location := Some url;
         setCookies := setCookies w; body := body w |}
  end.

Definition newline : string := String (ascii_of_nat 10) "".

Definition writeError (msg : string) (code : Z) (w : Response) : Response :=
  match status w with
  | Some _ =>
      {| status := status w; location := location w;
         setCookies := setCookies w; body := body w ++ msg ++ newline |}
  | None =>
      {| status := Some code; location := location w;
         setCookies := setCookies w; body := body w ++ msg ++ newline |}
  end.

Definition writeCookie (c : SetCookie) (w : Response) : Response :=
  match status w with
  | Some _ => w
  | None =>
      {| status := None; location := location w;
         setCookies := setCookies w ++ [c]; body := body w |}
  end.

(** ** The environment

    One oracle per call that leaves the package.  Each is consulted at most
    once while a request is served, so a function of its arguments is
    enough. *)

Inductive HTTPResult : Type :=
| GetFailed (e : string)        (* [http.Get] returned an error *)
| ReadFailed (e : string)       (* [ioutil.ReadAll] returned an error *)
| BodyRead (contents : list Byte.byte).

Record Env : Type := {
  (* crypto/rand.Read on a buffer of the given size: the buffer afterwards
     and the error *)
  randRead : nat -> list Byte.byte * error;
  (* the clock read by Token.Valid *)
  timeNow : Z;
  (* Config.AuthCodeURL of the oauth2 package *)
  AuthCodeURL : Config -> string -> string;
  (* Config.Exchange of the oauth2 package: the token pointer and the error *)
  Exchange : Config -> string -> option Token * error;
  (* http.Get followed by ioutil.ReadAll of the body *)
  httpGet : string -> HTTPResult;
  (* json.Unmarshal into the struct given: the struct afterwards and the
     error *)
  Unmarshal : list Byte.byte -> UserInfo -> UserInfo * error;
  (* securecookie.EncodeMulti of a session's values under its name *)
  secureEncode : string -> gmap string Value -> error
}.

(** ** Handler state and its monad *)

Inductive Event : Type :=
| EvLog (msg : string)
| EvExchange (code : string)
| EvGetUserInfo (state : string)
| EvHTTPGet (url : string)
| EvStoreGet (name : string)
| EvSave (name : string) (vals : gmap string Value) (opts : Options)
| EvRedirect (url : string) (code : Z)
| EvError (msg : string) (code : Z).

Record HState : Type := {
  auth : Auth;
  resp : Response;
  trace : list Event
}.

Definition M (A : Type) : Type := HState -> A * HState.

Definition ret {A : Type} (a : A) : M A := fun s => (a, s).

Definition bind {A B : Type} (m : M A) (k : A -> M B) : M B :=
  fun s => let (a, s') := m s in k a s'.

Declare Scope go_scope.
Delimit Scope go_scope with go.

Notation "'let!' x ':=' c 'in' k" := (bind c (fun x => k))
  (at level 100, x pattern, c at level 99, right associativity) : go_scope.
Notation "c ;; k" := (bind c (fun _ => k))
  (at level 100, right associativity) : go_scope.

Open Scope go_scope.

Definition exec {A : Type} (m : M A) (s : HState) : HState := snd (m s).

Definition emit (e : Event) : M unit :=
  fun s => (tt, {| auth := auth s; resp := resp s; trace := trace s ++ [e] |}).

Definition getAuth : M Auth := fun s => (auth s, s).

Definition setOauthStateString (v : string) : M unit :=
  fun s =>
    (tt, {| auth := {| googleOauthConfig := googleOauthConfig (auth s);
                       oauthStateString := v;
                       store := store (auth s) |};
            resp := resp s; trace := trace s |}).

Definition modifyResp (f : Response -> Response) : M unit :=
  fun s => (tt, {| auth := auth s; resp := f (resp s); trace := trace s |}).

Definition when (b : bool) (m : M unit) : M unit := if b then m else ret tt.

(** [log.Println], [log.Printf] and [fmt.Println]: the constant text is
    recorded, the formatted operands are not. *)
Definition logPrintln (msg : string) : M unit := emit (EvLog msg).

(** [http.Redirect] and [http.Error]. *)
Definition httpRedirect (url : string) (code : Z) : M unit :=
  emit (EvRedirect url code) ;; modifyResp (writeRedirect url code).

Definition httpError (msg : string) (code : Z) : M unit :=
  emit (EvError msg code) ;; modifyResp (writeError msg code).

(** [store.Get(r, name)]: a cookie that does not decode gives a new, empty
    session together with the error. *)
Definition newSession (s : CookieStore) (name : string) : Session :=
  {| Name := name; Values := ∅; SOptions := storeOptions s; IsNew := true |}.

Definition storeGet (r : Request) (name : string) : M (Session * error) :=
  emit (EvStoreGet name) ;;
  let! a := getAuth in
  ret match cookies r !! name with
      | None => (newSession (store a) name, None)
      | Some Malformed =>
          (newSession (store a) name,
           Some "securecookie: the value is not valid")
      | Some (Sealed v) =>
          ({| Name := name; Values := v; SOptions := storeOptions (store a);
              IsNew := false |}, None)
      end.

Definition setValue (k : string) (v : Value) (s : Session) : Session :=
  {| Name := Name s; Values := <[k := v]> (Values s);
     SOptions := SOptions s; IsNew := IsNew s |}.

Definition setOptions (o : Options) (s : Session) : Session :=
  {| Name := Name s; Values := Values s; SOptions := o; IsNew := IsNew s |}.

Section Handlers.

Variable E : Env.

(** [session.Save(r, w)]: encode the values, and on success add the cookie
    to the response. *)
Definition sessionSave (s : Session) : M error :=
  emit (EvSave (Name s) (Values s) (SOptions s)) ;;
  match secureEncode E (Name s) (Values s) with
  | Some e => ret (Some e)
  | None =>
      modifyResp (writeCookie {| scName := Name s; scValues := Values s;
                                 scOptions := SOptions s |}) ;;
      ret None
  end.

Definition createRandomKey (size : nat) : list Byte.byte * error :=
  let (b, err) := randRead E size in
  match err with
  | Some e => ([], Some e)
  | None => (b, None)
  end.

Definition Handler : Type := Request -> M unit.

Definition login : Handler := fun r =>
  let (stateStringRAW, err) := createRandomKey 16 in
  when (isErr err) (logPrintln "error: failed to create state string: ") ;;
  setOauthStateString (Base64.EncodeToString stateStringRAW) ;;
  let! a := getAuth in
  let url := AuthCodeURL E (googleOauthConfig a) (oauthStateString a) in
  httpRedirect url StatusTemporaryRedirect.

Definition logout : Handler := fun r =>
  let! (session, err) := storeGet r "cookie-name" in
  when (isErr err) (logPrintln "error: store.Get in /logout: ") ;;
  let session := setValue "authenticated" (VBool false) session in
  let! err := sessionSave session in
  if isErr err then
    logPrintln "error: session.Save on /logout: "
  else
    httpRedirect "/" StatusTemporaryRedirect.

Definition IsAuthenticated (h : Handler) : Handler := fun r =>
  let! (session, _) := storeGet r "cookie-name" in
  let email := Values session !! "email" in
  let (auth, ok) := assertBool (Values session !! "authenticated") in
  if negb ok || negb auth then
    httpError "Forbidden" StatusForbidden
  else
    logPrintln "--- Authenticated user accessing page is : " ;;
    h r.

Definition getUserInfo (state : string) (token : Token)
  : M (list Byte.byte * error) :=
  emit (EvGetUserInfo state) ;;
  let! a := getAuth in
  if negb (String.eqb state (oauthStateString a)) then
    ret ([], Some "invalid oauth state")
  else
    logPrintln "Token expire, " ;;
    let url := "https://www.googleapis.com/oauth2/v2/userinfo?access_token="
                 ++ AccessToken token in
    emit (EvHTTPGet url) ;;
    match httpGet E url with
    | GetFailed e => ret ([], Some ("failed getting user info: " ++ e))
    | ReadFailed e => ret ([], Some ("failed reading response body: " ++ e))
    | BodyRead contents => ret (contents, None)
    end.

Definition handleGoogleCallback : Handler := fun r =>
  let state := FormValue r "state" in
  let code := FormValue r "code" in
  let! a := getAuth in
  emit (EvExchange code) ;;
  let (token, err) := Exchange E (googleOauthConfig a) code in
  when (isErr err)
    (logPrintln "code exchange failed: " ;;
     httpRedirect "/" StatusTemporaryRedirect) ;;
  logPrintln "--- state : " ;;
  logPrintln "--- code : " ;;
  if negb (Valid (timeNow E) token) then
    logPrintln "error: token not valid in callback function. Token value = "
  else
    match token with
    | None => ret tt          (* not reached: a nil token is not valid *)
    | Some tok =>
        let! (rawUserInfo, err) := getUserInfo state tok in
        when (isErr err) (logPrintln "error: getUserInfo failed: ") ;;
        let (userInfo, err) := Unmarshal E rawUserInfo zeroUserInfo in
        when (isErr err)
          (logPrintln "error: marshall of the userInfo failed: ") ;;
        let! (session, err) := storeGet r "cookie-name" in
        when (isErr err) (logPrintln "error: store.Get in /login failed: ") ;;
        let session := setValue "authenticated" (VBool true) session in
        let session := setValue "id" (VString (ID userInfo)) session in
        let session := setValue "fullname" (VString (FullName userInfo)) session in
        let session := setValue "email" (VString (Email userInfo)) session in
        let session := setValue "state" (VString state) session in
        let session := setOptions {| MaxAge := 60 * 60 * 8 |} session in
        let! err := sessionSave session in
        if isErr err then
          logPrintln "error: session.Save on /login: "
        else
          httpRedirect "/" StatusTemporaryRedirect
    end.

(** [Run]: the routes registered on the default mux. *)
Definition Run : list (string * Handler) :=
  [ ("/slogin", login); ("/slogout", logout);
    ("/callback", handleGoogleCallback) ].

End Handlers.

(** ** Serving a request, and the user agent between requests *)

(** The server hands each handler a fresh response writer. *)
Definition freshState (a : Auth) : HState :=
  {| auth := a; resp := emptyResponse; trace := [] |}.

Definition serve (h : Handler) (a : Auth) (r : Request) : HState :=
  exec (h r) (freshState a).

(** The cookies the user agent holds after a response: a cookie set with a
    negative max-age is dropped, any other replaces the one of its name. *)
Definition storeCookie (jar : gmap string CookieBlob) (c : SetCookie)
  : gmap string CookieBlob :=
  if (MaxAge (scOptions c) <? 0)%Z then delete (scName c) jar
  else <[scName c := Sealed (scValues c)]> jar.

Definition applyCookies (jar : gmap string CookieBlob) (w : Response)
  : gmap string CookieBlob :=
  fold_left storeCookie (setCookies w) jar.

(** The values [store.Get] finds in a request's cookie jar. *)
Definition loadedValues (r : Request) (name : string) : gmap string Value :=
  match cookies r !! name with
  | Some (Sealed v) => v
  | _ => ∅
  end.

(** Call counts over a trace. *)
Definition isSave (e : Event) : bool :=
  match e with EvSave _ _ _ => true | _ => false end.
Definition isGetUserInfo (e : Event) : bool :=
  match e with EvGetUserInfo _ => true | _ => false end.
Definition isHTTPGet (e : Event) : bool :=
  match e with EvHTTPGet _ => true | _ => false end.
Definition isExchange (e : Event) : bool :=
  match e with EvExchange _ => true | _ => false end.

Definition calls (p : Event -> bool) (tr : list Event) : nat :=
  length (List.filter p tr).

(** The response is the redirect to the application root. *)
Definition redirectsToRoot (w : Response) : Prop :=
  status w = Some StatusTemporaryRedirect /\ location w = Some "/".

(** ** What the handlers are measured against *)

Definition isStoreGet (e : Event) : bool :=
  match e with EvStoreGet _ => true | _ => false end.

(** The values [logout] saves for a request. *)
Definition logoutValues (r : Request) : gmap string Value :=
  <["authenticated" := VBool false]> (loadedValues r "cookie-name").

Definition logoutCookie (a : Auth) (r : Request) : SetCookie :=
  {| scName := "cookie-name"; scValues := logoutValues r;
     scOptions := storeOptions (store a) |}.

(** The state in which the gate calls the wrapped handler, and the state
    it returns on rejection. *)
Definition gatePassed (s : HState) : HState :=
  {| auth := auth s; resp := resp s;
     trace := trace s ++ [EvStoreGet "cookie-name";
                          EvLog "--- Authenticated user accessing page is : "] |}.

Definition gateRejected (s : HState) : HState :=
  {| auth := auth s;
     resp := writeError "Forbidden" StatusForbidden (resp s);
     trace := trace s ++ [EvStoreGet "cookie-name";
                          EvError "Forbidden" StatusForbidden] |}.

(** The profile endpoint with the access token, as [getUserInfo] builds
    it. *)
Definition userinfoURL (tok : Token) : string :=
  "https://www.googleapis.com/oauth2/v2/userinfo?access_token="
    ++ AccessToken tok.

(** What [getUserInfo] returns as contents: nothing when the state differs
    from the held one or the fetch fails. *)
Definition fetched (E : Env) (a : Auth) (r : Request) (tok : Token)
  : list Byte.byte :=
  if String.eqb (FormValue r "state") (oauthStateString a) then
    match httpGet E (userinfoURL tok) with
    | BodyRead contents => contents
    | _ => []
    end
  else [].

Definition decoded (E : Env) (a : Auth) (r : Request) (tok : Token)
  : UserInfo :=
  fst (Unmarshal E (fetched E a r tok) zeroUserInfo).

(** The values the callback saves for a decoded profile. *)
Definition callbackValues (r : Request) (u : UserInfo) : gmap string Value :=
  <["state" := VString (FormValue r "state")]>
    (<["email" := VString (Email u)]>
       (<["fullname" := VString (FullName u)]>
          (<["id" := VString (ID u)]>
             (<["authenticated" := VBool true]>
                (loadedValues r "cookie-name"))))).

Definition callbackCookie (r : Request) (u : UserInfo) : SetCookie :=
  {| scName := "cookie-name"; scValues := callbackValues r u;
     scOptions := {| MaxAge := 60 * 60 * 8 |} |}.

Definition rootRedirect : Response :=
  writeRedirect "/" StatusTemporaryRedirect emptyResponse.

(** Some save recorded in the trace failed to encode. *)
Definition saveFailed (E : Env) (tr : list Event) : bool :=
  existsb (fun e => match e with
                    | EvSave n v _ => isErr (secureEncode E n v)
                    | _ => false
                    end) tr.

(** A computation that returns the shared [Auth] value as it found it. *)
Definition preservesAuth {A : Type} (m : M A) : Prop :=
  forall s, auth (snd (m s)) = auth s.

(** ** Concrete environments

    A provider that knows one authorization code and one user, and the
    variations of it in which one collaborator fails. *)

Module Demo.

Definition quote : string := String (ascii_of_nat 34) "".

Definition field (k v : string) : string :=
  quote ++ k ++ quote ++ ":" ++ quote ++ v ++ quote.

Definition profileJSON : string :=
  "{" ++ field "id" "42" ++ "," ++ field "email" "a@b.com" ++ ","
      ++ field "name" "A B" ++ "}".

Definition profile : UserInfo :=
  {| ID := "42"; Email := "a@b.com"; VerifiedEmail := false; Picture := "";
     FullName := "A B"; FirstName := ""; LastName := "" |}.

Definition randomBytes : list Byte.byte :=
  [Byte.x3a; Byte.xf1; Byte.x07; Byte.x9c; Byte.x55; Byte.xe2; Byte.x10;
   Byte.xbb; Byte.x64; Byte.x0d; Byte.xfe; Byte.x81; Byte.x29; Byte.xc3;
   Byte.x7e; Byte.x48].

Definition goodToken : Token :=
  {| AccessToken := "ya29.a0"; Expiry := Some 4600%Z |}.

Definition staleToken : Token :=
  {| AccessToken := "ya29.a0"; Expiry := Some 1005%Z |}.

Definition now : Z := 1000%Z.

Definition authCodeURL (c : Config) (state : string) : string :=
  fst (Endpoint c) ++ "?client_id=" ++ ClientID c ++ "&state=" ++ state.

Definition exchange (tok : Token) (c : Config) (code : string)
  : option Token * error :=
  if String.eqb code "abc" then (Some tok, None)
  else (None, Some "oauth2: cannot fetch token: 400 Bad Request").

Definition userinfoURL : string :=
  "https://www.googleapis.com/oauth2/v2/userinfo?access_token=ya29.a0".

Definition get (url : string) : HTTPResult :=
  if String.eqb url userinfoURL
  then BodyRead (list_byte_of_string profileJSON)
  else GetFailed "404 Not Found".

Definition unreachable (url : string) : HTTPResult :=
  GetFailed "dial tcp: i/o timeout".

(** [json.Unmarshal] on the two inputs it meets here: the profile document,
    and anything else, taken as the empty input on which it reports a
    syntax error and leaves the struct as it was. *)
Definition unmarshal (raw : list Byte.byte) (into : UserInfo)
  : UserInfo * error :=
  if String.eqb (string_of_list_byte raw) profileJSON
  then (profile, None)
  else (into, Some "unexpected end of JSON input").

Definition env : Env :=
  {| randRead := fun n => (firstn n randomBytes, None);
     timeNow := now;
     AuthCodeURL := authCodeURL;
     Exchange := exchange goodToken;
     httpGet := get;
     Unmarshal := unmarshal;
     secureEncode := fun _ _ => None |}.

(** The random source fails. *)
Definition envNoEntropy : Env :=
  {| randRead := fun n => (repeat Byte.x00 n, Some "unexpected EOF");
     timeNow := now;
     AuthCodeURL := authCodeURL;
     Exchange := exchange goodToken;
     httpGet := get;
     Unmarshal := unmarshal;
     secureEncode := fun _ _ => None |}.

(** The provider hands out a token that is within [expiryDelta] of its
    expiry. *)
Definition envStaleToken : Env :=
  {| randRead := fun n => (firstn n randomBytes, None);
     timeNow := now;
     AuthCodeURL := authCodeURL;
     Exchange := exchange staleToken;
     httpGet := get;
     Unmarshal := unmarshal;
     secureEncode := fun _ _ => None |}.

(** The profile endpoint cannot be reached. *)
Definition envUnreachable : Env :=
  {| randRead := fun n => (firstn n randomBytes, None);
     timeNow := now;
     AuthCodeURL := authCodeURL;
     Exchange := exchange goodToken;
     httpGet := unreachable;
     Unmarshal := unmarshal;
     secureEncode := fun _ _ => None |}.

(** The cookie cannot be encoded. *)
Definition envSaveFails : Env :=
  {| randRead := fun n => (firstn n randomBytes, None);
     timeNow := now;
     AuthCodeURL := authCodeURL;
     Exchange := exchange goodToken;
     httpGet := get;
     Unmarshal := unmarshal;
     secureEncode :=
       fun _ _ => Some "securecookie: the value is too long" |}.

Definition auth0 : Auth :=
  fst (NewAuth "http" "localhost" "8080" "cookie-store-key"
         "google-key" "google-secret").

Definition noCookies : gmap string CookieBlob := ∅.

Definition loginRequest : Request := {| form := []; cookies := noCookies |}.

Definition callbackRequest (state code : string) : Request :=
  {| form := [("state", state); ("code", code)]; cookies := noCookies |}.

(** A signed-in user's cookie. *)
Definition userValues : gmap string Value :=
  <["authenticated" := VBool true]>
    (<["id" := VString "42"]>
       (<["fullname" := VString "A B"]>
          (<["email" := VString "a@b.com"]>
             (<["state" := VString "c3RhdGU="]> ∅)))).

Definition userRequest : Request :=
  {| form := [];
     cookies := <["cookie-name" := Sealed userValues]> noCookies |}.

(** The state token [login] issues under [env], and a forged one. *)
Definition issuedState : string := "OvEHnFXiELtkDf6BKcN-SA==".
Definition forgedState : string := "Zm9yZ2Vk".

End Demo.

(** ** Vocabulary for the state token *)

(** The characters of a URL-safe base64 text: letters, digits, [-], [_]
    and the padding [=]. *)
Definition urlSafeChar (c : ascii) : bool :=
  let n := nat_of_ascii c in
  (Nat.leb 65 n && Nat.leb n 90) || (Nat.leb 97 n && Nat.leb n 122)
  || (Nat.leb 48 n && Nat.leb n 57)
  || Nat.eqb n 45 || Nat.eqb n 95 || Nat.eqb n 61.

Fixpoint allChars (p : ascii -> bool) (s : string) : bool :=
  match s with
  | EmptyString => true
  | String c s' => p c && allChars p s'
  end.

(** The position of a character in an alphabet. *)
Fixpoint indexOf (c : ascii) (s : string) : N :=
  match s with
  | EmptyString => 0
  | String d s' => if Ascii.eqb c d then 0 else N.succ (indexOf c s')
  end.

(** The session keys the callback writes. *)
Definition callbackKeys : list string :=
  ["authenticated"; "id"; "fullname"; "email"; "state"].

(** A request as another user agent would send it: the same parameters,
    other cookies. *)
Definition withCookies (jar : gmap string CookieBlob) (r : Request)
  : Request :=
  {| form := form r; cookies := jar |}.

(** ** Further scenarios *)

Module Scenario.

Definition otherBytes : list Byte.byte :=
  [Byte.x91; Byte.x02; Byte.xd4; Byte.x6b; Byte.x3e; Byte.xa7; Byte.x58;
   Byte.x0c; Byte.xf3; Byte.x2d; Byte.x86; Byte.x1f; Byte.xc0; Byte.x75;
   Byte.xea; Byte.x49].

(** [Demo.env] with another draw from the random source. *)
Definition envOther : Env :=
  {| randRead := fun n => (firstn n otherBytes, None);
     timeNow := Demo.now;
     AuthCodeURL := Demo.authCodeURL;
     Exchange := Demo.exchange Demo.goodToken;
     httpGet := Demo.get;
     Unmarshal := Demo.unmarshal;
     secureEncode := fun _ _ => None |}.

(** A callback that carries a code but no [state] parameter. *)
Definition statelessCallback : Request :=
  {| form := [("code", "abc")]; cookies := Demo.noCookies |}.

(** A user agent whose cookie does not decode. *)
Definition tamperedJar : gmap string CookieBlob :=
  <["cookie-name" := Malformed]> Demo.noCookies.

End Scenario.

(** * Properties *)

(** ** Basic facts *)

Lemma storeGet_values (r : Request) (name : string) (s : HState) :
  Values (fst (fst (storeGet r name s))) = loadedValues r name.
Proof.
  unfold storeGet, loadedValues, bind, emit, getAuth, ret. simpl.
  destruct (cookies r !! name) as [[v|]|]; reflexivity.
Qed.

Lemma storeGet_state (r : Request) (name : string) (s : HState) :
  snd (storeGet r name s) =
  {| auth := auth s; resp := resp s; trace := trace s ++ [EvStoreGet name] |}.
Proof. reflexivity. Qed.

Lemma Valid_Some (now : Z) (t : option Token) :
  Valid now t = true -> exists tok, t = Some tok.
Proof. destruct t as [tok|]; [eauto | discriminate]. Qed.

(** The encoder on the RFC 4648 test vectors and on bytes that need the
    URL alphabet. *)
Example EncodeToString_f :
  Base64.EncodeToString (list_byte_of_string "f") = "Zg==".
Proof. reflexivity. Qed.

Example EncodeToString_fo :
  Base64.EncodeToString (list_byte_of_string "fo") = "Zm8=".
Proof. reflexivity. Qed.

Example EncodeToString_foobar :
  Base64.EncodeToString (list_byte_of_string "foobar") = "Zm9vYmFy".
Proof. reflexivity. Qed.

Example EncodeToString_url_alphabet :
  Base64.EncodeToString [Byte.xfb; Byte.xff; Byte.xfe] = "-__-".
Proof. reflexivity. Qed.

Lemma EncodeToString_nil : Base64.EncodeToString [] = "".
Proof. reflexivity. Qed.

(** Only the empty key encodes to the empty token. *)
Lemma EncodeToString_empty (src : list Byte.byte) :
  Base64.EncodeToString src = "" -> src = [].
Proof.
  destruct src as [|b0 [|b1 [|b2 rest]]]; simpl;
    [reflexivity | discriminate | discriminate | discriminate].
Qed.

(** Four characters for every three bytes begun. *)
Lemma EncodeToString_length (src : list Byte.byte) :
  String.length (Base64.EncodeToString src) = 4 * ((length src + 2) / 3).
Proof.
  assert (H : forall n (l : list Byte.byte), length l < n ->
            String.length (Base64.EncodeToString l)
            = 4 * ((length l + 2) / 3)).
  { induction n as [|n IH]; intros l Hl; [lia|].
    destruct l as [|b0 [|b1 [|b2 rest]]]; try reflexivity.
    change (String.length (Base64.EncodeToString (b0 :: b1 :: b2 :: rest)))
      with (4 + String.length (Base64.EncodeToString rest)).
    simpl length in *. rewrite IH by lia.
    replace (S (S (S (length rest))) + 2) with (length rest + 2 + 1 * 3)
      by lia.
    rewrite Nat.div_add by lia. lia. }
  apply (H (S (length src))). lia.
Qed.

(** A sixteen-byte key gives a token of twenty-four characters. *)
Lemma EncodeToString_key16 (src : list Byte.byte) :
  length src = 16 -> String.length (Base64.EncodeToString src) = 24.
Proof. intros H. rewrite EncodeToString_length, H. reflexivity. Qed.

(** ** The authorization gate *)

Lemma IsAuthenticated_unfold (h : Handler) (r : Request) (s : HState) :
  IsAuthenticated h r s =
  match loadedValues r "cookie-name" !! "authenticated" with
  | Some (VBool true) => h r (gatePassed s)
  | _ => (tt, gateRejected s)
  end.
Proof.
  unfold IsAuthenticated, loadedValues, storeGet, bind, emit, getAuth, ret,
    gatePassed, gateRejected, httpError, logPrintln, modifyResp, emit, bind.
  simpl.
  destruct (cookies r !! "cookie-name") as [[v|]|]; simpl.
  - destruct (v !! "authenticated") as [[[|]| |]|]; simpl;
      rewrite <- ?app_assoc; reflexivity.
  - rewrite lookup_empty. simpl. rewrite <- app_assoc. reflexivity.
  - rewrite lookup_empty. simpl. rewrite <- app_assoc. reflexivity.
Qed.

(** C5. Whatever handler the gate wraps and whatever the request: when the
    [authenticated] value of the loaded session is the boolean true, the
    gate runs the wrapped handler (after logging the access); when it is
    missing, false or of another type, the gate answers 403 Forbidden, its
    result does not depend on the wrapped handler, which is therefore not
    run, and neither the shared [Auth] value nor any cookie is touched. *)
Theorem gate_fail_closed (h : Handler) (r : Request) (s : HState) :
  let session := fst (fst (storeGet r "cookie-name" s)) in
  match Values session !! "authenticated" with
  | Some (VBool true) =>
      IsAuthenticated h r s = h r (gatePassed s)
  | Some (VBool false) | Some (VString _) | Some (VInt _) | None =>
      IsAuthenticated h r s = (tt, gateRejected s)
      /\ (forall h' : Handler, IsAuthenticated h' r s = IsAuthenticated h r s)
      /\ auth (gateRejected s) = auth s
      /\ setCookies (resp (gateRejected s)) = setCookies (resp s)
      /\ calls isSave (trace (gateRejected s)) = calls isSave (trace s)
      /\ status (resp (gateRejected s)) =
         Some (match status (resp s) with
               | Some c => c
               | None => StatusForbidden
               end)
  end.
Proof.
  intros session. subst session. rewrite storeGet_values.
  pose proof (IsAuthenticated_unfold h r s) as Hh.
  destruct (loadedValues r "cookie-name" !! "authenticated")
    as [[[|]|str|z]|] eqn:Hv; try exact Hh.
  all: split; [exact Hh|].
  all: split; [intros h'; rewrite Hh, (IsAuthenticated_unfold h' r s), Hv;
               reflexivity|].
  all: split; [reflexivity|].
  all: split; [unfold gateRejected, writeError; simpl;
               destruct (status (resp s)); reflexivity|].
  all: split; [unfold gateRejected, calls; simpl;
               rewrite List.filter_app, length_app; simpl; lia|].
  all: unfold gateRejected, writeError; simpl;
    destruct (status (resp s)); reflexivity.
Qed.

(** ** Frame: who writes the shared [Auth] value *)

Lemma preserves_ret {A : Type} (a : A) : preservesAuth (ret a).
Proof. intros s. reflexivity. Qed.

Lemma preserves_bind {A B : Type} (m : M A) (k : A -> M B) :
  preservesAuth m -> (forall a, preservesAuth (k a)) ->
  preservesAuth (bind m k).
Proof.
  intros Hm Hk s. unfold bind. specialize (Hm s).
  destruct (m s) as [a s1]. simpl in Hm. rewrite <- Hm. apply Hk.
Qed.

Lemma preserves_emit (e : Event) : preservesAuth (emit e).
Proof. intros s. reflexivity. Qed.

Lemma preserves_getAuth : preservesAuth getAuth.
Proof. intros s. reflexivity. Qed.

Lemma preserves_modifyResp (f : Response -> Response) :
  preservesAuth (modifyResp f).
Proof. intros s. reflexivity. Qed.

Lemma preserves_when (b : bool) (m : M unit) :
  preservesAuth m -> preservesAuth (when b m).
Proof. intros Hm. destruct b; [exact Hm | apply preserves_ret]. Qed.

Create HintDb frame.
#[local] Hint Resolve preserves_ret preserves_emit preserves_getAuth
  preserves_modifyResp preserves_when : frame.

Ltac frame :=
  repeat first
    [ progress intros
    | apply preserves_bind
    | progress auto with frame
    | match goal with
      | |- preservesAuth (match ?x with _ => _ end) => destruct x
      | |- preservesAuth (let (_, _) := ?x in _) => destruct x
      end ].

Lemma preserves_logPrintln (msg : string) : preservesAuth (logPrintln msg).
Proof. unfold logPrintln. frame. Qed.

Lemma preserves_httpRedirect (url : string) (code : Z) :
  preservesAuth (httpRedirect url code).
Proof. unfold httpRedirect. frame. Qed.

Lemma preserves_httpError (msg : string) (code : Z) :
  preservesAuth (httpError msg code).
Proof. unfold httpError. frame. Qed.

Lemma preserves_storeGet (r : Request) (name : string) :
  preservesAuth (storeGet r name).
Proof. unfold storeGet. frame. Qed.

Lemma preserves_sessionSave (E : Env) (s : Session) :
  preservesAuth (sessionSave E s).
Proof. unfold sessionSave. frame. Qed.

#[local] Hint Resolve preserves_logPrintln preserves_httpRedirect
  preserves_httpError preserves_storeGet preserves_sessionSave : frame.

Lemma preserves_getUserInfo (E : Env) (state : string) (tok : Token) :
  preservesAuth (getUserInfo E state tok).
Proof. unfold getUserInfo. frame. Qed.

#[local] Hint Resolve preserves_getUserInfo : frame.

Lemma preserves_logout (E : Env) (r : Request) : preservesAuth (logout E r).
Proof. unfold logout. frame. Qed.

Lemma preserves_handleGoogleCallback (E : Env) (r : Request) :
  preservesAuth (handleGoogleCallback E r).
Proof. unfold handleGoogleCallback. frame. Qed.

(** C10. The handlers leave the shared [Auth] value alone, except that
    [login] overwrites [oauthStateString]: [logout] and the callback
    handler return it as they found it, the gate hands it unchanged to the
    wrapped handler or returns it unchanged with the rejection, and
    [login] keeps [googleOauthConfig] and [store] and sets
    [oauthStateString] to the encoding of the key it drew; of the routes
    [Run] registers, every one but [/slogin] preserves [Auth]. *)
Theorem auth_written_only_by_login :
  (forall E r s, auth (exec (logout E r) s) = auth s)
  /\ (forall E r s, auth (exec (handleGoogleCallback E r) s) = auth s)
  /\ (forall h r s,
        auth (gatePassed s) = auth s
        /\ auth (gateRejected s) = auth s
        /\ (exec (IsAuthenticated h r) s = exec (h r) (gatePassed s)
            \/ exec (IsAuthenticated h r) s = gateRejected s))
  /\ (forall E r s,
        let a' := auth (exec (login E r) s) in
        googleOauthConfig a' = googleOauthConfig (auth s)
        /\ store a' = store (auth s)
        /\ oauthStateString a' =
           Base64.EncodeToString (fst (createRandomKey E 16)))
  /\ (forall E,
        Forall (fun route =>
                  fst route = "/slogin"
                  \/ forall r s, auth (exec (snd route r) s) = auth s)
          (Run E)).
Proof.
  split; [intros E r s; apply preserves_logout|].
  split; [intros E r s; apply preserves_handleGoogleCallback|].
  split.
  - intros h r s. split; [reflexivity|]. split; [reflexivity|].
    unfold exec. rewrite IsAuthenticated_unfold.
    destruct (loadedValues r "cookie-name" !! "authenticated")
      as [[[|]| |]|]; auto.
  - split.
    + intros E r s a'. subst a'. unfold exec, login.
      destruct (createRandomKey E 16) as [raw err].
      destruct err; simpl; auto.
    + intros E. unfold Run.
      constructor; [left; reflexivity|].
      constructor; [right; intros r s; apply preserves_logout|].
      constructor;
        [right; intros r s; apply preserves_handleGoogleCallback|].
      constructor.
Qed.

(** ** Logout *)

Lemma logout_serve (E : Env) (a : Auth) (r : Request) :
  let s' := serve (logout E) a r in
  auth s' = a
  /\ List.filter (fun e => isStoreGet e || isSave e) (trace s') =
       [EvStoreGet "cookie-name";
        EvSave "cookie-name" (logoutValues r) (storeOptions (store a))]
  /\ resp s' =
       match secureEncode E "cookie-name" (logoutValues r) with
       | Some _ => emptyResponse
       | None =>
           writeRedirect "/" StatusTemporaryRedirect
             (writeCookie (logoutCookie a r) emptyResponse)
       end
  /\ List.filter isSave (trace s') =
       [EvSave "cookie-name" (logoutValues r) (storeOptions (store a))].
Proof.
  unfold serve, exec, logout, logoutCookie, logoutValues, loadedValues,
    storeGet, sessionSave, bind, emit, getAuth, ret, when, logPrintln,
    httpRedirect, modifyResp, setValue, newSession, freshState.
  simpl.
  destruct (cookies r !! "cookie-name") as [[v|]|]; simpl;
    match goal with
    | |- context [secureEncode E ?n ?v] => destruct (secureEncode E n v)
    end; simpl; auto.
Qed.

(** C8. Serving a logout request: the session is loaded once and saved
    once, the values saved are the loaded ones with [authenticated] set to
    the boolean false and every other key ([id], [email], [fullname]
    among them) as loaded; when the save fails nothing is written to the
    response (no redirect, no cookie); when it succeeds the cookie is set
    and the response is the 307 redirect to the application root. *)
Theorem logout_revokes_and_keeps_fields (E : Env) (a : Auth) (r : Request) :
  let s' := serve (logout E) a r in
  let loaded := loadedValues r "cookie-name" in
  let saved := logoutValues r in
  List.filter (fun e => isStoreGet e || isSave e) (trace s') =
    [EvStoreGet "cookie-name";
     EvSave "cookie-name" saved (storeOptions (store a))]
  /\ saved !! "authenticated" = Some (VBool false)
  /\ saved !! "id" = loaded !! "id"
  /\ saved !! "email" = loaded !! "email"
  /\ saved !! "fullname" = loaded !! "fullname"
  /\ delete "authenticated" saved = delete "authenticated" loaded
  /\ match secureEncode E "cookie-name" saved with
     | Some _ => resp s' = emptyResponse
     | None =>
         redirectsToRoot (resp s')
         /\ setCookies (resp s') = [logoutCookie a r]
     end.
Proof.
  intros s' loaded saved.
  destruct (logout_serve E a r) as (_ & Htr & Hresp & _).
  fold s' in Htr, Hresp.
  split; [exact Htr|].
  subst saved loaded. unfold logoutValues.
  split; [apply lookup_insert_eq|].
  split; [apply lookup_insert_ne; discriminate|].
  split; [apply lookup_insert_ne; discriminate|].
  split; [apply lookup_insert_ne; discriminate|].
  split; [apply delete_insert_eq|].
  fold (logoutValues r). rewrite Hresp.
  destruct (secureEncode E "cookie-name" (logoutValues r));
    [reflexivity | split; [split|]; reflexivity].
Qed.


Lemma logoutValues_authenticated (r : Request) :
  logoutValues r !! "authenticated" = Some (VBool false).
Proof. apply lookup_insert_eq. Qed.

Lemma logoutValues_cookies (r r' : Request) :
  cookies r' = cookies r -> logoutValues r' = logoutValues r.
Proof. intros H. unfold logoutValues, loadedValues. rewrite H. reflexivity. Qed.

Lemma logoutValues_again (r r' : Request) :
  cookies r' !! "cookie-name" = Some (Sealed (logoutValues r)) ->
  logoutValues r' = logoutValues r.
Proof.
  intros H. unfold logoutValues at 1. unfold loadedValues. rewrite H.
  unfold logoutValues. apply insert_insert_eq.
Qed.

(** C9. Two logout requests in a row from one user agent, whatever cookie
    it held before and provided the store's default max-age does not make
    the agent drop the cookie: each call saves a session whose
    [authenticated] value is the boolean false, the second call answers
    exactly as the first did (so it does not fail where the first
    succeeded), it leaves the shared [Auth] value and the agent's cookies
    as the first call left them, and after a successful first call the
    cookie the agent holds is the logged-out session. *)
Theorem logout_idempotent (E : Env) (a : Auth) (r1 : Request)
    (form2 : list (string * string)) :
  (0 <= MaxAge (storeOptions (store a)))%Z ->
  let s1 := serve (logout E) a r1 in
  let r2 := {| form := form2;
               cookies := applyCookies (cookies r1) (resp s1) |} in
  let s2 := serve (logout E) (auth s1) r2 in
  List.filter isSave (trace s1) =
    [EvSave "cookie-name" (logoutValues r1) (storeOptions (store a))]
  /\ List.filter isSave (trace s2) =
    [EvSave "cookie-name" (logoutValues r2) (storeOptions (store a))]
  /\ logoutValues r1 !! "authenticated" = Some (VBool false)
  /\ logoutValues r2 !! "authenticated" = Some (VBool false)
  /\ resp s2 = resp s1
  /\ auth s2 = a
  /\ applyCookies (cookies r2) (resp s2) = cookies r2
  /\ match status (resp s1) with
     | Some _ =>
         cookies r2 !! "cookie-name" = Some (Sealed (logoutValues r1))
         /\ redirectsToRoot (resp s2)
     | None => cookies r2 = cookies r1
     end.
Proof.
  intros Hage s1 r2 s2.
  destruct (logout_serve E a r1) as (Ha1 & _ & Hr1 & Hs1).
  fold s1 in Ha1, Hr1, Hs1.
  destruct (logout_serve E (auth s1) r2) as (Ha2 & _ & Hr2 & Hs2).
  fold s2 in Ha2, Hr2, Hs2. rewrite Ha1 in Ha2, Hr2, Hs2.
  clearbody s2 s1.
  assert (Hlt : (MaxAge (storeOptions (store a)) <? 0)%Z = false)
    by (apply Z.ltb_ge; exact Hage).
  split; [exact Hs1|]. split; [exact Hs2|].
  split; [apply logoutValues_authenticated|].
  split; [apply logoutValues_authenticated|].
  destruct (secureEncode E "cookie-name" (logoutValues r1)) as [e|] eqn:Henc.
  - (* the first save failed: the agent keeps its cookies *)
    assert (Hjar : cookies r2 = cookies r1)
      by (subst r2; simpl; rewrite Hr1; reflexivity).
    clearbody r2.
    assert (Hv : logoutValues r2 = logoutValues r1)
      by (apply logoutValues_cookies; exact Hjar).
    rewrite Hv, Henc in Hr2.
    rewrite Hr2, Hr1. simpl. auto.
  - (* the first save succeeded: the agent holds the logged-out session *)
    assert (Hjar : cookies r2 =
                   <["cookie-name" := Sealed (logoutValues r1)]> (cookies r1)).
    { subst r2. simpl. rewrite Hr1. unfold applyCookies, storeCookie. simpl.
      rewrite Hlt. reflexivity. }
    clearbody r2.
    assert (Hget : cookies r2 !! "cookie-name" =
                   Some (Sealed (logoutValues r1)))
      by (rewrite Hjar; apply lookup_insert_eq).
    assert (Hv : logoutValues r2 = logoutValues r1)
      by (apply logoutValues_again; exact Hget).
    assert (Hc : logoutCookie a r2 = logoutCookie a r1)
      by (unfold logoutCookie; rewrite Hv; reflexivity).
    rewrite Hv, Henc, Hc in Hr2.
    rewrite Hr2, Hr1.
    split; [reflexivity|]. split; [exact Ha2|].
    split.
    + unfold applyCookies, storeCookie. simpl. rewrite Hlt.
      rewrite Hjar. apply insert_insert_eq.
    + simpl. split; [exact Hget|]. split; reflexivity.
Qed.

Lemma logout_idempotent_witness :
  (0 <= MaxAge (storeOptions (store Demo.auth0)))%Z
  /\ resp (serve (logout Demo.env)
             (auth (serve (logout Demo.env) Demo.auth0 Demo.userRequest))
             {| form := [];
                cookies :=
                  applyCookies (cookies Demo.userRequest)
                    (resp (serve (logout Demo.env) Demo.auth0
                             Demo.userRequest)) |})
     = resp (serve (logout Demo.env) Demo.auth0 Demo.userRequest).
Proof.
  assert (H : (0 <= MaxAge (storeOptions (store Demo.auth0)))%Z)
    by (vm_compute; discriminate).
  split; [exact H|].
  exact (proj1 (proj2 (proj2 (proj2 (proj2
    (logout_idempotent Demo.env Demo.auth0 Demo.userRequest [] H)))))).
Defined.

(** ** The callback *)

Ltac unfold_callback :=
  unfold serve, exec, handleGoogleCallback, getUserInfo, storeGet,
    sessionSave, bind, emit, getAuth, ret, when, logPrintln, httpRedirect,
    modifyResp, setValue, setOptions, newSession, freshState, calls;
  simpl.

(** A token that is not valid ends the callback before the profile is
    fetched or a session is touched. *)
Lemma callback_invalid_token (E : Env) (a : Auth) (r : Request)
    (token : option Token) (err : error) :
  Exchange E (googleOauthConfig a) (FormValue r "code") = (token, err) ->
  Valid (timeNow E) token = false ->
  let s' := serve (handleGoogleCallback E) a r in
  calls isExchange (trace s') = 1
  /\ calls isGetUserInfo (trace s') = 0
  /\ calls isHTTPGet (trace s') = 0
  /\ calls isStoreGet (trace s') = 0
  /\ calls isSave (trace s') = 0
  /\ resp s' = (if isErr err then rootRedirect else emptyResponse).
Proof.
  intros Hex Hv. unfold_callback. rewrite Hex. simpl.
  destruct err; simpl; rewrite Hv; simpl; auto 10.
Qed.

(** A valid token carries the callback through to the save, whatever
    [getUserInfo] and [json.Unmarshal] reported on the way, and whatever
    error came with the token: after a failed exchange it is the nil token
    alone that stops the handler. *)
Lemma callback_valid_token (E : Env) (a : Auth) (r : Request)
    (tok : Token) (err : error) :
  Exchange E (googleOauthConfig a) (FormValue r "code") = (Some tok, err) ->
  Valid (timeNow E) (Some tok) = true ->
  let s' := serve (handleGoogleCallback E) a r in
  let u := decoded E a r tok in
  calls isGetUserInfo (trace s') = 1
  /\ calls isHTTPGet (trace s') =
       (if String.eqb (FormValue r "state") (oauthStateString a)
        then 1 else 0)
  /\ List.filter isSave (trace s') =
       [EvSave "cookie-name" (callbackValues r u) {| MaxAge := 60 * 60 * 8 |}]
  /\ resp s' =
       match err, secureEncode E "cookie-name" (callbackValues r u) with
       | Some _, _ => rootRedirect
       | None, Some _ => emptyResponse
       | None, None =>
           writeRedirect "/" StatusTemporaryRedirect
             (writeCookie (callbackCookie r u) emptyResponse)
       end.
Proof.
  intros Hex Hv. unfold_callback. rewrite Hex. simpl.
  unfold decoded, fetched, callbackCookie, callbackValues, loadedValues,
    userinfoURL.
  assert (Hv' : Valid (timeNow E) (Some tok) = true) by exact Hv.
  simpl in Hv'.
  destruct err as [e|]; simpl; rewrite Hv'; simpl;
    destruct (String.eqb (FormValue r "state") (oauthStateString a)); simpl.
  all: repeat match goal with
       | |- context [httpGet ?e ?x] => destruct (httpGet e x); simpl
       | |- context [Unmarshal ?e ?x ?y] =>
           destruct (Unmarshal e x y) as [u [e'|]]; simpl
       | |- context [cookies ?q !! ?n] =>
           destruct (cookies q !! n) as [[v|]|]; simpl
       | |- context [secureEncode ?e ?n ?v] =>
           destruct (secureEncode e n v); simpl
       end.
  all: auto 10.
Qed.

Lemma saveFailed_filter (E : Env) (tr : list Event) :
  saveFailed E tr = saveFailed E (List.filter isSave tr).
Proof.
  unfold saveFailed.
  induction tr as [|ev tr IH]; [reflexivity|].
  destruct ev; simpl; rewrite ?IH; reflexivity.
Qed.

(** C2. When the code exchange fails, returning as the oauth2 client does a
    nil token with the error, the callback makes the one exchange call and
    no other: [getUserInfo] is not called, no profile request is sent, the
    session is neither loaded nor saved, no cookie is set, and the
    response is the 307 redirect to the application root. *)
Theorem exchange_failure_short_circuits (E : Env) (a : Auth) (r : Request)
    (e : string) :
  Exchange E (googleOauthConfig a) (FormValue r "code") = (None, Some e) ->
  let s' := serve (handleGoogleCallback E) a r in
  calls isExchange (trace s') = 1
  /\ calls isGetUserInfo (trace s') = 0
  /\ calls isHTTPGet (trace s') = 0
  /\ calls isStoreGet (trace s') = 0
  /\ calls isSave (trace s') = 0
  /\ setCookies (resp s') = []
  /\ redirectsToRoot (resp s')
  /\ auth s' = a.
Proof.
  intros Hex s'.
  destruct (callback_invalid_token E a r None (Some e) Hex eq_refl)
    as (H1 & H2 & H3 & H4 & H5 & H6).
  fold s' in H1, H2, H3, H4, H5, H6.
  repeat (split; [assumption|]).
  rewrite H6. simpl.
  split; [reflexivity|]. split; [split; reflexivity|].
  apply (preserves_handleGoogleCallback E r (freshState a)).
Qed.

Lemma exchange_failure_short_circuits_witness :
  Exchange Demo.env (googleOauthConfig Demo.auth0)
    (FormValue (Demo.callbackRequest Demo.issuedState "expired-code") "code")
  = (None, Some "oauth2: cannot fetch token: 400 Bad Request")
  /\ calls isSave
       (trace (serve (handleGoogleCallback Demo.env) Demo.auth0
                 (Demo.callbackRequest Demo.issuedState "expired-code"))) = 0.
Proof.
  assert (H : Exchange Demo.env (googleOauthConfig Demo.auth0)
                (FormValue (Demo.callbackRequest Demo.issuedState
                              "expired-code") "code")
              = (None, Some "oauth2: cannot fetch token: 400 Bad Request"))
    by reflexivity.
  split; [exact H|].
  exact (proj1 (proj2 (proj2 (proj2 (proj2
    (exchange_failure_short_circuits Demo.env Demo.auth0
       (Demo.callbackRequest Demo.issuedState "expired-code") _ H)))))).
Defined.

(** C7, as the code has it. The callback answers with the 307 redirect to
    the application root exactly when the code exchange reported an error,
    or the token is valid and the session save succeeded; in the remaining
    outcomes (a token that is not valid after an exchange without error,
    or a save that failed) the handler returns having written nothing. *)
Theorem callback_redirect_cases (E : Env) (a : Auth) (r : Request) :
  let s' := serve (handleGoogleCallback E) a r in
  let res := Exchange E (googleOauthConfig a) (FormValue r "code") in
  if isErr (snd res)
     || (Valid (timeNow E) (fst res) && negb (saveFailed E (trace s')))
  then redirectsToRoot (resp s')
  else resp s' = emptyResponse.
Proof.
  intros s' res.
  destruct (Exchange E (googleOauthConfig a) (FormValue r "code"))
    as [token err] eqn:Hex.
  subst res. simpl.
  destruct (Valid (timeNow E) token) eqn:Hv.
  - destruct (Valid_Some _ _ Hv) as [tok ->].
    destruct (callback_valid_token E a r tok err Hex Hv)
      as (_ & _ & Hsave & Hresp).
    fold s' in Hsave, Hresp.
    assert (Hf : saveFailed E (trace s') =
                 isErr (secureEncode E "cookie-name"
                          (callbackValues r (decoded E a r tok)))).
    { rewrite saveFailed_filter, Hsave. unfold saveFailed. simpl.
      apply orb_false_r. }
    rewrite Hf, Hresp. simpl.
    destruct err; simpl; [split; reflexivity|].
    destruct (secureEncode E "cookie-name"
                (callbackValues r (decoded E a r tok))); simpl;
      [reflexivity | split; reflexivity].
  - destruct (callback_invalid_token E a r token err Hex Hv)
      as (_ & _ & _ & _ & _ & Hresp).
    fold s' in Hresp. rewrite Hresp, orb_false_r.
    destruct err; simpl; [split; reflexivity | reflexivity].
Qed.

(** C7 as stated fails. With the token issued by [login] and a code the
    provider accepts, a provider whose token is already within its expiry
    margin, and likewise a cookie that cannot be encoded, make the
    callback return with nothing written: no 307 and no Location. *)
Lemma callback_not_always_redirect :
  let r := Demo.callbackRequest Demo.issuedState "abc" in
  let stale := resp (serve (handleGoogleCallback Demo.envStaleToken)
                       Demo.auth0 r) in
  let unsaved := resp (serve (handleGoogleCallback Demo.envSaveFails)
                         Demo.auth0 r) in
  stale = emptyResponse /\ ~ redirectsToRoot stale
  /\ unsaved = emptyResponse /\ ~ redirectsToRoot unsaved.
Proof.
  cbv zeta.
  assert (H : ~ redirectsToRoot emptyResponse)
    by (intros [Hst _]; discriminate Hst).
  assert (H1 : resp (serve (handleGoogleCallback Demo.envStaleToken)
                       Demo.auth0
                       (Demo.callbackRequest Demo.issuedState "abc"))
               = emptyResponse) by (vm_compute; reflexivity).
  assert (H2 : resp (serve (handleGoogleCallback Demo.envSaveFails)
                       Demo.auth0
                       (Demo.callbackRequest Demo.issuedState "abc"))
               = emptyResponse) by (vm_compute; reflexivity).
  rewrite H1, H2. auto.
Qed.

(** ** Login and the round trip *)

Lemma login_serve (E : Env) (a : Auth) (r : Request) :
  let s' := serve (login E) a r in
  let S := Base64.EncodeToString (fst (createRandomKey E 16)) in
  oauthStateString (auth s') = S
  /\ googleOauthConfig (auth s') = googleOauthConfig a
  /\ store (auth s') = store a
  /\ resp s' =
       writeRedirect (AuthCodeURL E (googleOauthConfig a) S)
         StatusTemporaryRedirect emptyResponse.
Proof.
  unfold serve, exec, login.
  destruct (createRandomKey E 16) as [raw [e|]]; simpl; auto.
Qed.

Lemma createRandomKey_error (E : Env) (size : nat) (b : list Byte.byte)
    (e : string) :
  randRead E size = (b, Some e) -> createRandomKey E size = ([], Some e).
Proof. intros H. unfold createRandomKey. rewrite H. reflexivity. Qed.

Lemma callbackValues_lookup (r : Request) (u : UserInfo) :
  callbackValues r u !! "authenticated" = Some (VBool true)
  /\ callbackValues r u !! "id" = Some (VString (ID u))
  /\ callbackValues r u !! "email" = Some (VString (Email u))
  /\ callbackValues r u !! "fullname" = Some (VString (FullName u))
  /\ callbackValues r u !! "state" = Some (VString (FormValue r "state")).
Proof.
  unfold callbackValues.
  repeat split;
    repeat first [ apply lookup_insert_eq
                 | rewrite lookup_insert_ne by discriminate ].
Qed.

(** C6. The round trip. [login] answers with the 307 redirect to the
    provider URL built for the token [S] it now holds. A callback that
    brings back [S] with a code the provider exchanges for a valid token,
    whose profile request returns a document that decodes to [u], and
    whose cookie encodes, passes the state check (the profile request is
    sent), sets one cookie holding [authenticated = true] with the [id],
    [email] and [fullname] of [u] and the state [S], with a max-age of
    eight hours, and redirects to the application root; a request that
    then presents the agent's cookies goes through the gate to the wrapped
    handler. *)
Theorem login_callback_round_trip (E : Env) (a : Auth) (r0 r : Request)
    (tok : Token) (raw : list Byte.byte) (u : UserInfo) :
  FormValue r "state" = oauthStateString (auth (serve (login E) a r0)) ->
  Exchange E (googleOauthConfig a) (FormValue r "code") = (Some tok, None) ->
  Valid (timeNow E) (Some tok) = true ->
  httpGet E (userinfoURL tok) = BodyRead raw ->
  Unmarshal E raw zeroUserInfo = (u, None) ->
  secureEncode E "cookie-name" (callbackValues r u) = None ->
  let s1 := serve (login E) a r0 in
  let S := oauthStateString (auth s1) in
  let s2 := serve (handleGoogleCallback E) (auth s1) r in
  let session := callbackValues r u in
  status (resp s1) = Some StatusTemporaryRedirect
  /\ location (resp s1) = Some (AuthCodeURL E (googleOauthConfig a) S)
  /\ calls isHTTPGet (trace s2) = 1
  /\ setCookies (resp s2) =
       [{| scName := "cookie-name"; scValues := session;
           scOptions := {| MaxAge := 8 * 3600 |} |}]
  /\ session !! "authenticated" = Some (VBool true)
  /\ session !! "id" = Some (VString (ID u))
  /\ session !! "email" = Some (VString (Email u))
  /\ session !! "fullname" = Some (VString (FullName u))
  /\ session !! "state" = Some (VString S)
  /\ redirectsToRoot (resp s2)
  /\ forall (h : Handler) (form3 : list (string * string)) (s : HState),
       let r3 := {| form := form3;
                    cookies := applyCookies (cookies r) (resp s2) |} in
       IsAuthenticated h r3 s = h r3 (gatePassed s).
Proof.
  intros Hstate Hex Hv Hget Hun Henc s1 S s2 session.
  destruct (login_serve E a r0) as (HS & Hcfg & _ & Hresp1).
  fold s1 in Hstate, HS, Hcfg, Hresp1. fold S in Hstate.
  rewrite <- Hcfg in Hex.
  destruct (callback_valid_token E (auth s1) r tok None Hex Hv)
    as (_ & Hfetch & _ & Hresp2).
  fold s2 in Hfetch, Hresp2.
  assert (Hu : decoded E (auth s1) r tok = u).
  { unfold decoded, fetched. fold S. rewrite Hstate, String.eqb_refl.
    rewrite Hget, Hun. reflexivity. }
  rewrite Hu, Henc in Hresp2.
  fold S in Hfetch. rewrite Hstate, String.eqb_refl in Hfetch.
  destruct (callbackValues_lookup r u) as (La & Li & Le & Lf & Ls).
  fold session in La, Li, Le, Lf, Ls.
  clearbody s1 s2.
  split; [rewrite Hresp1; reflexivity|].
  split; [rewrite Hresp1; unfold S; rewrite HS; reflexivity|].
  split; [exact Hfetch|].
  split; [rewrite Hresp2; reflexivity|].
  split; [exact La|]. split; [exact Li|]. split; [exact Le|].
  split; [exact Lf|]. split; [rewrite Ls, Hstate; reflexivity|].
  split; [rewrite Hresp2; split; reflexivity|].
  intros h form3 s r3.
  rewrite IsAuthenticated_unfold.
  assert (Hl : loadedValues r3 "cookie-name" = session).
  { unfold loadedValues. subst r3. simpl. rewrite Hresp2.
    unfold applyCookies, storeCookie. simpl.
    rewrite lookup_insert_eq. reflexivity. }
  rewrite Hl, La. reflexivity.
Qed.

Lemma login_callback_round_trip_witness :
  let S := oauthStateString
             (auth (serve (login Demo.env) Demo.auth0 Demo.loginRequest)) in
  let r := Demo.callbackRequest Demo.issuedState "abc" in
  FormValue r "state" = S
  /\ setCookies
       (resp (serve (handleGoogleCallback Demo.env)
                (auth (serve (login Demo.env) Demo.auth0 Demo.loginRequest))
                r))
     = [{| scName := "cookie-name";
           scValues := callbackValues r Demo.profile;
           scOptions := {| MaxAge := 8 * 3600 |} |}].
Proof.
  assert (H1 : FormValue (Demo.callbackRequest Demo.issuedState "abc") "state"
               = oauthStateString
                   (auth (serve (login Demo.env) Demo.auth0
                            Demo.loginRequest)))
    by reflexivity.
  split; [exact H1|].
  exact (proj1 (proj2 (proj2 (proj2
    (login_callback_round_trip Demo.env Demo.auth0 Demo.loginRequest
       (Demo.callbackRequest Demo.issuedState "abc") Demo.goodToken
       (list_byte_of_string Demo.profileJSON) Demo.profile
       H1 eq_refl eq_refl eq_refl eq_refl eq_refl))))).
Defined.

(** ** Where the handlers log an error and carry on *)

(** The state check sits inside [getUserInfo]; the callback logs its error
    and goes on to the save with the zero value of the profile. *)
Lemma callback_state_mismatch (E : Env) (a : Auth) (r : Request)
    (tok : Token) (err : error) :
  Exchange E (googleOauthConfig a) (FormValue r "code") = (Some tok, err) ->
  Valid (timeNow E) (Some tok) = true ->
  String.eqb (FormValue r "state") (oauthStateString a) = false ->
  let s' := serve (handleGoogleCallback E) a r in
  let u := fst (Unmarshal E [] zeroUserInfo) in
  calls isHTTPGet (trace s') = 0
  /\ List.filter isSave (trace s') =
       [EvSave "cookie-name" (callbackValues r u) {| MaxAge := 60 * 60 * 8 |}]
  /\ callbackValues r u !! "authenticated" = Some (VBool true).
Proof.
  intros Hex Hv Hne s' u.
  destruct (callback_valid_token E a r tok err Hex Hv) as (_ & Hg & Hs & _).
  fold s' in Hg, Hs. rewrite Hne in Hg.
  assert (Hu : decoded E a r tok = u)
    by (unfold decoded, fetched; rewrite Hne; reflexivity).
  rewrite Hu in Hs.
  split; [exact Hg|]. split; [exact Hs|].
  apply callbackValues_lookup.
Qed.

(** A failed read of the random source leaves [login] with the empty key,
    whose encoding is the empty token, and the redirect goes out. *)
Lemma login_without_entropy (E : Env) (a : Auth) (r : Request)
    (b : list Byte.byte) (e : string) :
  randRead E 16 = (b, Some e) ->
  let s' := serve (login E) a r in
  oauthStateString (auth s') = ""
  /\ resp s' =
       writeRedirect (AuthCodeURL E (googleOauthConfig a) "")
         StatusTemporaryRedirect emptyResponse.
Proof.
  intros Hr s'.
  destruct (login_serve E a r) as (HS & _ & _ & Hresp).
  fold s' in HS, Hresp.
  rewrite (createRandomKey_error E 16 b e Hr) in HS, Hresp.
  split; assumption.
Qed.

(** C1, on the code. The held token is the one [login] issued; the
    callback brings a different [state] and a code the provider accepts.
    [getUserInfo] refuses and no profile request is sent, yet the session
    is saved: the cookie set holds [authenticated = true], and the answer
    is the same redirect as for a successful login. *)
Theorem state_mismatch_still_saves_session :
  let a := auth (serve (login Demo.env) Demo.auth0 Demo.loginRequest) in
  let r := Demo.callbackRequest Demo.forgedState "abc" in
  let s' := serve (handleGoogleCallback Demo.env) a r in
  FormValue r "state" <> oauthStateString a
  /\ calls isGetUserInfo (trace s') = 1
  /\ calls isHTTPGet (trace s') = 0
  /\ calls isSave (trace s') = 1
  /\ setCookies (resp s') = [callbackCookie r zeroUserInfo]
  /\ callbackValues r zeroUserInfo !! "authenticated" = Some (VBool true)
  /\ redirectsToRoot (resp s').
Proof.
  cbv zeta.
  split; [vm_compute; intros H; discriminate H|].
  repeat split; vm_compute; reflexivity.
Qed.

(** C3, on the code. The state matches but the profile endpoint cannot be
    reached: the session saved is authenticated and its [id] and [email]
    are empty. The same session results from a [state] that does not
    match. *)
Theorem authenticated_session_with_empty_identity :
  let a := auth (serve (login Demo.envUnreachable) Demo.auth0
                   Demo.loginRequest) in
  let r := Demo.callbackRequest Demo.issuedState "abc" in
  let s' := serve (handleGoogleCallback Demo.envUnreachable) a r in
  let saved := callbackValues r zeroUserInfo in
  FormValue r "state" = oauthStateString a
  /\ calls isHTTPGet (trace s') = 1
  /\ setCookies (resp s') =
       [{| scName := "cookie-name"; scValues := saved;
           scOptions := {| MaxAge := 8 * 3600 |} |}]
  /\ saved !! "authenticated" = Some (VBool true)
  /\ saved !! "id" = Some (VString "")
  /\ saved !! "email" = Some (VString "")
  /\ setCookies
       (resp (serve (handleGoogleCallback Demo.env) a
                (Demo.callbackRequest Demo.forgedState "abc")))
     = [callbackCookie (Demo.callbackRequest Demo.forgedState "abc")
          zeroUserInfo].
Proof.
  cbv zeta. repeat split; vm_compute; reflexivity.
Qed.

(** C4, on the code. The random source fails: [createRandomKey] reports
    the error, [login] logs it, stores the empty state token and sends the
    307 redirect to the provider with that token. *)
Theorem entropy_failure_not_fatal :
  let s' := serve (login Demo.envNoEntropy) Demo.auth0 Demo.loginRequest in
  createRandomKey Demo.envNoEntropy 16 = ([], Some "unexpected EOF")
  /\ oauthStateString (auth s') = ""
  /\ status (resp s') = Some StatusTemporaryRedirect
  /\ location (resp s') =
       Some (AuthCodeURL Demo.envNoEntropy (googleOauthConfig Demo.auth0) "")
  /\ trace s' =
       [EvLog "error: failed to create state string: ";
        EvRedirect
          (AuthCodeURL Demo.envNoEntropy (googleOauthConfig Demo.auth0) "")
          StatusTemporaryRedirect].
Proof.
  cbv zeta. repeat split; vm_compute; reflexivity.
Qed.

(** * Further properties *)

(** ** The encoding of the state token *)

Lemma land63_lt (v : N) : (N.land v 63 < 64)%N.
Proof.
  change 63%N with (N.ones 6). rewrite N.land_ones.
  apply N.mod_lt. discriminate.
Qed.

Lemma sextet_cases (P : N -> Prop) :
  (forall k, k < 64 -> P (N.of_nat k)) -> forall v, (v < 64)%N -> P v.
Proof.
  intros H v Hv. rewrite <- (N2Nat.id v). apply H. lia.
Qed.

Lemma encodeChar_facts (v : N) :
  urlSafeChar (Base64.encodeChar v) = true
  /\ Base64.encodeChar v <> Base64.StdPadding
  /\ indexOf (Base64.encodeChar v) Base64.encodeURL = N.land v 63.
Proof.
  unfold Base64.encodeChar.
  pose proof (land63_lt v) as Hlt.
  generalize dependent (N.land v 63). intros w Hw.
  pattern w. apply sextet_cases; [|exact Hw].
  intros k Hk. rewrite Nat2N.id.
  do 64 (destruct k as [|k];
         [split; [reflexivity|split; [discriminate|reflexivity]]|]).
  lia.
Qed.

Lemma byte_lt (b : Byte.byte) : (Base64.u b < 256)%N.
Proof. unfold Base64.u. pose proof (Byte.to_N_bounded b). lia. Qed.

Lemma u_inj (b b' : Byte.byte) : Base64.u b = Base64.u b' -> b = b'.
Proof.
  unfold Base64.u. intros H.
  pose proof (Byte.of_to_N b) as Hb. pose proof (Byte.of_to_N b') as Hb'.
  rewrite H in Hb. congruence.
Qed.

Lemma lor_shiftl (hi lo n : N) :
  (lo < 2 ^ n)%N -> N.lor (N.shiftl hi n) lo = (hi * 2 ^ n + lo)%N.
Proof.
  intros Hlo.
  assert (Hd : N.land (N.shiftl hi n) lo = 0%N).
  { apply N.bits_inj. intros k. rewrite N.land_spec, N.bits_0.
    destruct (N.lt_ge_cases k n) as [Hk|Hk].
    - rewrite N.shiftl_spec_low by exact Hk. reflexivity.
    - rewrite <- (N.mod_small lo (2 ^ n)) by exact Hlo.
      rewrite N.mod_pow2_bits_high by exact Hk. apply andb_false_r. }
  rewrite <- N.lxor_lor by exact Hd.
  rewrite <- N.add_nocarry_lxor by exact Hd.
  rewrite N.shiftl_mul_pow2. reflexivity.
Qed.

Lemma sextet_div (x k : N) :
  N.land (N.shiftr x k) 63 = ((x / 2 ^ k) mod 64)%N.
Proof.
  change 63%N with (N.ones 6). rewrite N.land_ones, N.shiftr_div_pow2.
  reflexivity.
Qed.

Lemma pack1 (b0 : Byte.byte) :
  N.shiftl (Base64.u b0) 16 = (Base64.u b0 * 65536)%N.
Proof. rewrite N.shiftl_mul_pow2. reflexivity. Qed.

Lemma pack2 (b0 b1 : Byte.byte) :
  N.lor (N.shiftl (Base64.u b0) 16) (N.shiftl (Base64.u b1) 8)
  = (Base64.u b0 * 65536 + Base64.u b1 * 256)%N.
Proof.
  pose proof (byte_lt b1).
  rewrite (N.shiftl_mul_pow2 (Base64.u b1)).
  rewrite lor_shiftl by (change (2 ^ 8)%N with 256%N;
                         change (2 ^ 16)%N with 65536%N; lia).
  reflexivity.
Qed.

Lemma pack3 (b0 b1 b2 : Byte.byte) :
  N.lor (N.lor (N.shiftl (Base64.u b0) 16) (N.shiftl (Base64.u b1) 8))
    (Base64.u b2)
  = (Base64.u b0 * 65536 + Base64.u b1 * 256 + Base64.u b2)%N.
Proof.
  pose proof (byte_lt b2).
  rewrite pack2.
  replace (Base64.u b0 * 65536 + Base64.u b1 * 256)%N
    with (N.shiftl (Base64.u b0 * 256 + Base64.u b1) 8)
    by (rewrite N.shiftl_mul_pow2; change (2 ^ 8)%N with 256%N; lia).
  rewrite lor_shiftl by (change (2 ^ 8)%N with 256%N; lia).
  rewrite N.shiftl_mul_pow2. change (2 ^ 8)%N with 256%N. lia.
Qed.

Lemma sextets_determine (x : N) :
  (x < 16777216)%N ->
  x = (((x / 262144) mod 64) * 262144 + ((x / 4096) mod 64) * 4096
       + ((x / 64) mod 64) * 64 + x mod 64)%N.
Proof.
  intros Hx.
  pose proof (N.div_mod' x 64) as H0.
  pose proof (N.div_mod' (x / 64) 64) as H1.
  pose proof (N.div_mod' (x / 4096) 64) as H2.
  rewrite (N.Div0.div_div x 64 64) in H1.
  rewrite (N.Div0.div_div x 4096 64) in H2.
  change (64 * 64)%N with 4096%N in H1.
  change (4096 * 64)%N with 262144%N in H2.
  assert (H3 : (x / 262144 < 64)%N)
    by (apply N.Div0.div_lt_upper_bound; exact Hx).
  rewrite (N.mod_small _ _ H3). lia.
Qed.

Lemma sextets_inj (x y : N) :
  (x < 16777216)%N -> (y < 16777216)%N ->
  N.land (N.shiftr x 18) 63 = N.land (N.shiftr y 18) 63 ->
  N.land (N.shiftr x 12) 63 = N.land (N.shiftr y 12) 63 ->
  N.land (N.shiftr x 6) 63 = N.land (N.shiftr y 6) 63 ->
  N.land x 63 = N.land y 63 ->
  x = y.
Proof.
  intros Hx Hy H18 H12 H6 H0.
  rewrite !sextet_div in H18, H12, H6.
  change (2 ^ 18)%N with 262144%N in H18.
  change (2 ^ 12)%N with 4096%N in H12.
  change (2 ^ 6)%N with 64%N in H6.
  change 63%N with (N.ones 6) in H0. rewrite !N.land_ones in H0.
  change (2 ^ 6)%N with 64%N in H0.
  rewrite (sextets_determine x Hx), (sextets_determine y Hy).
  rewrite H18, H12, H6, H0. reflexivity.
Qed.

Lemma low_sextet_zero (v : N) : N.land (v * 256) 63 = N.land 0 63.
Proof.
  change 63%N with (N.ones 6). rewrite !N.land_ones.
  replace (v * 256)%N with (v * 4 * 2 ^ 6)%N
    by (change (2 ^ 6)%N with 64%N; lia).
  rewrite N.Div0.mod_mul. reflexivity.
Qed.

Lemma low_sextets_zero (v : N) :
  N.land (N.shiftr (v * 65536) 6) 63 = 0%N /\ N.land (v * 65536) 63 = 0%N.
Proof.
  split.
  - rewrite sextet_div.
    replace (v * 65536)%N with (v * 1024 * 2 ^ 6)%N
      by (change (2 ^ 6)%N with 64%N; lia).
    rewrite N.div_mul by discriminate.
    replace (v * 1024)%N with (v * 16 * 64)%N by lia.
    apply N.Div0.mod_mul.
  - replace (v * 65536)%N with (v * 256 * 256)%N by lia.
    rewrite low_sextet_zero. reflexivity.
Qed.

Lemma val1_lt (b0 : Byte.byte) : (Base64.u b0 * 65536 < 16777216)%N.
Proof. pose proof (byte_lt b0). lia. Qed.

Lemma val2_lt (b0 b1 : Byte.byte) :
  (Base64.u b0 * 65536 + Base64.u b1 * 256 < 16777216)%N.
Proof. pose proof (byte_lt b0). pose proof (byte_lt b1). lia. Qed.

Lemma val3_lt (b0 b1 b2 : Byte.byte) :
  (Base64.u b0 * 65536 + Base64.u b1 * 256 + Base64.u b2 < 16777216)%N.
Proof.
  pose proof (byte_lt b0). pose proof (byte_lt b1). pose proof (byte_lt b2).
  lia.
Qed.

Lemma encodeChar_inj (x y : N) :
  Base64.encodeChar x = Base64.encodeChar y -> N.land x 63 = N.land y 63.
Proof.
  intros H.
  rewrite <- (proj2 (proj2 (encodeChar_facts x))).
  rewrite <- (proj2 (proj2 (encodeChar_facts y))).
  rewrite H. reflexivity.
Qed.

Lemma encodeChar_not_pad (x : N) : Base64.encodeChar x <> Base64.StdPadding.
Proof. apply encodeChar_facts. Qed.

Lemma string_cons_inj (c c' : ascii) (s s' : string) :
  String c s = String c' s' -> c = c' /\ s = s'.
Proof. intros H. injection H as -> ->. split; reflexivity. Qed.

Ltac sextets :=
  repeat match goal with
    | H : String _ _ = String _ _ |- _ =>
        apply string_cons_inj in H; destruct H as [? ?]
    end;
  try match goal with
    | H : Base64.encodeChar _ = Base64.StdPadding |- _ =>
        exfalso; exact (encodeChar_not_pad _ H)
    | H : Base64.StdPadding = Base64.encodeChar _ |- _ =>
        exfalso; exact (encodeChar_not_pad _ (eq_sym H))
    end;
  repeat match goal with
    | H : Base64.encodeChar _ = Base64.encodeChar _ |- _ =>
        apply encodeChar_inj in H
    end.

Lemma EncodeToString_inj (l1 l2 : list Byte.byte) :
  Base64.EncodeToString l1 = Base64.EncodeToString l2 -> l1 = l2.
Proof.
  assert (H : forall n (l1 l2 : list Byte.byte), length l1 < n ->
            Base64.EncodeToString l1 = Base64.EncodeToString l2 -> l1 = l2).
  { clear l1 l2. induction n as [|n IH]; intros l1 l2 Hn Heq; [lia|].
    destruct l1 as [|a0 [|a1 [|a2 r1]]];
      destruct l2 as [|b0 [|b1 [|b2 r2]]];
      try reflexivity; try discriminate Heq;
      cbn [Base64.EncodeToString] in Heq; cbv zeta in Heq;
      sextets.
    - (* one byte each *)
      rewrite !pack1 in *.
      assert (Hv : (Base64.u a0 * 65536 = Base64.u b0 * 65536)%N).
      { apply sextets_inj; try apply val1_lt; try assumption.
        - rewrite (proj1 (low_sextets_zero (Base64.u a0))).
          rewrite (proj1 (low_sextets_zero (Base64.u b0))). reflexivity.
        - rewrite (proj2 (low_sextets_zero (Base64.u a0))).
          rewrite (proj2 (low_sextets_zero (Base64.u b0))). reflexivity. }
      f_equal. apply u_inj. lia.
    - (* two bytes each *)
      rewrite !pack2 in *.
      assert (Hv : (Base64.u a0 * 65536 + Base64.u a1 * 256
                    = Base64.u b0 * 65536 + Base64.u b1 * 256)%N).
      { apply sextets_inj; try apply val2_lt; try assumption.
        replace (Base64.u a0 * 65536 + Base64.u a1 * 256)%N
          with ((Base64.u a0 * 256 + Base64.u a1) * 256)%N by lia.
        replace (Base64.u b0 * 65536 + Base64.u b1 * 256)%N
          with ((Base64.u b0 * 256 + Base64.u b1) * 256)%N by lia.
        rewrite !low_sextet_zero. reflexivity. }
      pose proof (byte_lt a1). pose proof (byte_lt b1).
      assert (Base64.u a0 = Base64.u b0) by lia.
      assert (Base64.u a1 = Base64.u b1) by lia.
      f_equal; [apply u_inj; assumption|].
      f_equal. apply u_inj; assumption.
    - (* three bytes and a rest *)
      rewrite !pack3 in *.
      assert (Hv : (Base64.u a0 * 65536 + Base64.u a1 * 256 + Base64.u a2
                    = Base64.u b0 * 65536 + Base64.u b1 * 256
                      + Base64.u b2)%N)
        by (apply sextets_inj; try apply val3_lt; assumption).
      pose proof (byte_lt a1). pose proof (byte_lt b1).
      pose proof (byte_lt a2). pose proof (byte_lt b2).
      assert (Base64.u a0 = Base64.u b0) by lia.
      assert (Base64.u a1 = Base64.u b1) by lia.
      assert (Base64.u a2 = Base64.u b2) by lia.
      simpl in Hn.
      rewrite (IH r1 r2) by (lia || assumption).
      f_equal; [apply u_inj; assumption|].
      f_equal; [apply u_inj; assumption|].
      f_equal. apply u_inj; assumption. }
  apply (H (S (length l1))). lia.
Qed.

Lemma EncodeToString_urlSafe (src : list Byte.byte) :
  allChars urlSafeChar (Base64.EncodeToString src) = true.
Proof.
  assert (Hc : forall v, urlSafeChar (Base64.encodeChar v) = true)
    by (intros v; apply encodeChar_facts).
  assert (H : forall n (l : list Byte.byte), length l < n ->
            allChars urlSafeChar (Base64.EncodeToString l) = true).
  { induction n as [|n IH]; intros l Hl; [lia|].
    destruct l as [|b0 [|b1 [|b2 rest]]];
      cbn [Base64.EncodeToString allChars]; cbv zeta;
      rewrite ?Hc; try reflexivity.
    simpl in Hl. rewrite IH by lia. reflexivity. }
  apply (H (S (length src))). lia.
Qed.

(** ** Login *)

(** X1. Whatever the request and whatever the random source did, [login]
    answers with the 307 redirect to the provider URL built for exactly
    the token it holds afterwards; it sets no cookie, neither loads nor
    saves a session, calls no exchange, and does not look at the
    request. *)
Theorem login_redirects_with_held_token (E : Env) (a : Auth)
    (r r' : Request) :
  let s' := serve (login E) a r in
  status (resp s') = Some StatusTemporaryRedirect
  /\ location (resp s') =
       Some (AuthCodeURL E (googleOauthConfig a) (oauthStateString (auth s')))
  /\ setCookies (resp s') = []
  /\ calls isStoreGet (trace s') = 0
  /\ calls isSave (trace s') = 0
  /\ calls isExchange (trace s') = 0
  /\ serve (login E) a r' = s'.
Proof.
  unfold serve, exec, login.
  destruct (createRandomKey E 16) as [raw [e|]]; simpl; auto 10.
Qed.

(** X2. When the random source fills the sixteen bytes, the state token
    [login] holds is twenty-four characters long, is made of URL-safe
    characters only and is not empty. *)
Theorem login_token_format (E : Env) (a : Auth) (r : Request)
    (b : list Byte.byte) :
  randRead E 16 = (b, None) ->
  length b = 16 ->
  let S := oauthStateString (auth (serve (login E) a r)) in
  String.length S = 24
  /\ allChars urlSafeChar S = true
  /\ S <> "".
Proof.
  intros Hr Hb S.
  destruct (login_serve E a r) as (HS & _).
  assert (Hk : createRandomKey E 16 = (b, None))
    by (unfold createRandomKey; rewrite Hr; reflexivity).
  rewrite Hk in HS. simpl in HS. subst S. rewrite HS.
  split; [apply EncodeToString_key16; exact Hb|].
  split; [apply EncodeToString_urlSafe|].
  intros Hempty. apply EncodeToString_empty in Hempty.
  rewrite Hempty in Hb. discriminate Hb.
Qed.

Lemma login_token_format_witness :
  randRead Demo.env 16 = (Demo.randomBytes, None)
  /\ String.length
       (oauthStateString
          (auth (serve (login Demo.env) Demo.auth0 Demo.loginRequest))) = 24.
Proof.
  assert (H : randRead Demo.env 16 = (Demo.randomBytes, None))
    by reflexivity.
  split; [exact H|].
  exact (proj1 (login_token_format Demo.env Demo.auth0 Demo.loginRequest
                  Demo.randomBytes H eq_refl)).
Defined.

(** X3. The encoding of the key is one-to-one: two logins whose random
    sources delivered different keys hold different state tokens. *)
Theorem login_tokens_distinct (E1 E2 : Env) (a1 a2 : Auth)
    (r1 r2 : Request) (b1 b2 : list Byte.byte) :
  randRead E1 16 = (b1, None) ->
  randRead E2 16 = (b2, None) ->
  b1 <> b2 ->
  oauthStateString (auth (serve (login E1) a1 r1))
  <> oauthStateString (auth (serve (login E2) a2 r2)).
Proof.
  intros H1 H2 Hne Heq.
  destruct (login_serve E1 a1 r1) as (HS1 & _).
  destruct (login_serve E2 a2 r2) as (HS2 & _).
  assert (Hk1 : createRandomKey E1 16 = (b1, None))
    by (unfold createRandomKey; rewrite H1; reflexivity).
  assert (Hk2 : createRandomKey E2 16 = (b2, None))
    by (unfold createRandomKey; rewrite H2; reflexivity).
  rewrite Hk1 in HS1. rewrite Hk2 in HS2. simpl in HS1, HS2.
  rewrite HS1, HS2 in Heq.
  apply Hne. apply EncodeToString_inj. exact Heq.
Qed.

Lemma login_tokens_distinct_witness :
  Demo.randomBytes <> Scenario.otherBytes
  /\ oauthStateString
       (auth (serve (login Demo.env) Demo.auth0 Demo.loginRequest))
     <> oauthStateString
          (auth (serve (login Scenario.envOther) Demo.auth0
                   Demo.loginRequest)).
Proof.
  assert (H : Demo.randomBytes <> Scenario.otherBytes)
    by (intros Heq; discriminate Heq).
  split; [exact H|].
  exact (login_tokens_distinct Demo.env Scenario.envOther Demo.auth0
           Demo.auth0 Demo.loginRequest Demo.loginRequest
           Demo.randomBytes Scenario.otherBytes eq_refl eq_refl H).
Defined.

(** ** The callback *)

Lemma FormValue_missing (r : Request) (key : string) :
  (forall v, ~ In (key, v) (form r)) -> FormValue r key = "".
Proof.
  unfold FormValue. induction (form r) as [|[k v] f IH]; intros H;
    [reflexivity|].
  simpl. destruct (String.eqb_spec k key) as [->|Hne].
  - exfalso. apply (H v). left. reflexivity.
  - apply IH. intros v' Hin. apply (H v'). right. exact Hin.
Qed.

(** How often the callback calls [getUserInfo], the profile endpoint and
    [Save], on every path. *)
Lemma callback_counts (E : Env) (a : Auth) (r : Request) :
  let s' := serve (handleGoogleCallback E) a r in
  let valid :=
    Valid (timeNow E)
      (fst (Exchange E (googleOauthConfig a) (FormValue r "code"))) in
  calls isGetUserInfo (trace s') = (if valid then 1 else 0)
  /\ calls isHTTPGet (trace s') =
       (if valid && String.eqb (FormValue r "state") (oauthStateString a)
        then 1 else 0)
  /\ calls isSave (trace s') = (if valid then 1 else 0).
Proof.
  intros s' valid. subst valid.
  destruct (Exchange E (googleOauthConfig a) (FormValue r "code"))
    as [token err] eqn:Hex.
  simpl. destruct (Valid (timeNow E) token) eqn:Hv.
  - destruct (Valid_Some _ _ Hv) as [tok ->].
    destruct (callback_valid_token E a r tok err Hex Hv)
      as (Hg & Hh & Hs & _).
    fold s' in Hg, Hh, Hs.
    split; [exact Hg|]. split; [exact Hh|].
    unfold calls. rewrite Hs. reflexivity.
  - destruct (callback_invalid_token E a r token err Hex Hv)
      as (_ & Hg & Hh & _ & Hs & _).
    auto.
Qed.

(** X4. The token is held in a single slot: a callback that passes the
    state check after one [login] no longer passes it once a second
    [login] has drawn another token. *)
Theorem second_login_replaces_token (E1 E2 E : Env) (a : Auth)
    (r1 r2 r : Request) (tok : Token) (err : error) :
  FormValue r "state" = oauthStateString (auth (serve (login E1) a r1)) ->
  oauthStateString (auth (serve (login E1) a r1))
  <> oauthStateString
       (auth (serve (login E2) (auth (serve (login E1) a r1)) r2)) ->
  Exchange E (googleOauthConfig a) (FormValue r "code") = (Some tok, err) ->
  Valid (timeNow E) (Some tok) = true ->
  let a1 := auth (serve (login E1) a r1) in
  let a2 := auth (serve (login E2) a1 r2) in
  calls isHTTPGet (trace (serve (handleGoogleCallback E) a1 r)) = 1
  /\ calls isHTTPGet (trace (serve (handleGoogleCallback E) a2 r)) = 0.
Proof.
  intros Hst Hne Hex Hv a1 a2.
  destruct (login_serve E1 a r1) as (_ & Hc1 & _).
  destruct (login_serve E2 a1 r2) as (_ & Hc2 & _).
  fold a1 in Hc1, Hst, Hne. fold a2 in Hc2, Hne.
  destruct (callback_counts E a1 r) as (_ & H1 & _).
  destruct (callback_counts E a2 r) as (_ & H2 & _).
  rewrite Hc1, Hex in H1. rewrite Hc2, Hc1, Hex in H2.
  simpl fst in H1, H2. rewrite Hv in H1, H2.
  rewrite Hst, String.eqb_refl in H1.
  assert (Hf : String.eqb (FormValue r "state") (oauthStateString a2)
               = false)
    by (rewrite Hst; apply String.eqb_neq; exact Hne).
  rewrite Hf in H2. split; assumption.
Qed.

Lemma second_login_replaces_token_witness :
  let a1 := auth (serve (login Demo.env) Demo.auth0 Demo.loginRequest) in
  let a2 := auth (serve (login Scenario.envOther) a1 Demo.loginRequest) in
  oauthStateString a1 <> oauthStateString a2
  /\ calls isHTTPGet
       (trace (serve (handleGoogleCallback Demo.env) a2
                 (Demo.callbackRequest Demo.issuedState "abc"))) = 0.
Proof.
  assert (H : oauthStateString
                (auth (serve (login Demo.env) Demo.auth0 Demo.loginRequest))
              <> oauthStateString
                   (auth (serve (login Scenario.envOther)
                            (auth (serve (login Demo.env) Demo.auth0
                                     Demo.loginRequest))
                            Demo.loginRequest)))
    by (vm_compute; intros Heq; discriminate Heq).
  split; [exact H|].
  exact (proj2 (second_login_replaces_token Demo.env Scenario.envOther
                  Demo.env Demo.auth0 Demo.loginRequest Demo.loginRequest
                  (Demo.callbackRequest Demo.issuedState "abc")
                  Demo.goodToken None eq_refl H eq_refl eq_refl)).
Defined.

(** X5. An [Auth] fresh from [NewAuth] holds the empty token, and a
    missing [state] parameter reads as the empty string: before any
    [login], a callback without a [state] passes the state check and the
    profile is requested. *)
Theorem fresh_auth_accepts_missing_state (E : Env)
    (proto host port cookieStoreKey clientIDKey clientSecret : string)
    (r : Request) (tok : Token) (err : error) :
  (forall v, ~ In ("state", v) (form r)) ->
  Exchange E
    (newOauthConfig proto host port clientIDKey clientSecret)
    (FormValue r "code") = (Some tok, err) ->
  Valid (timeNow E) (Some tok) = true ->
  let a := fst (NewAuth proto host port cookieStoreKey clientIDKey
                  clientSecret) in
  let s' := serve (handleGoogleCallback E) a r in
  FormValue r "state" = oauthStateString a
  /\ calls isHTTPGet (trace s') = 1
  /\ calls isSave (trace s') = 1.
Proof.
  intros Hno Hex Hv a s'.
  assert (Hs : FormValue r "state" = "")
    by (apply FormValue_missing; exact Hno).
  destruct (callback_counts E a r) as (_ & Hh & Hsv).
  fold s' in Hh, Hsv.
  change (googleOauthConfig a)
    with (newOauthConfig proto host port clientIDKey clientSecret)
    in Hh, Hsv.
  rewrite Hex in Hh, Hsv. simpl fst in Hh, Hsv. rewrite Hv in Hh, Hsv.
  rewrite Hs in Hh. simpl in Hh.
  split; [exact Hs|]. split; assumption.
Qed.

Lemma fresh_auth_accepts_missing_state_witness :
  (forall v, ~ In ("state", v) (form Scenario.statelessCallback))
  /\ calls isHTTPGet
       (trace (serve (handleGoogleCallback Demo.env) Demo.auth0
                 Scenario.statelessCallback)) = 1.
Proof.
  assert (H : forall v, ~ In ("state", v) (form Scenario.statelessCallback)).
  { intros v [Hin|[]]. discriminate Hin. }
  split; [exact H|].
  exact (proj1 (proj2 (fresh_auth_accepts_missing_state Demo.env
                  "http" "localhost" "8080" "cookie-store-key"
                  "google-key" "google-secret" Scenario.statelessCallback
                  Demo.goodToken None H eq_refl eq_refl))).
Defined.

(** X6. The callback sends the code to the provider before anything else
    and exactly once, whatever the [state]: its first call is the
    exchange of the request's [code] parameter, and the state check comes
    only after it. *)
Theorem callback_exchanges_first (E : Env) (a : Auth) (r : Request) :
  exists rest,
    trace (serve (handleGoogleCallback E) a r)
    = EvExchange (FormValue r "code") :: rest
    /\ calls isExchange rest = 0.
Proof.
  destruct (Exchange E (googleOauthConfig a) (FormValue r "code"))
    as [token err] eqn:Hex.
  destruct (Valid (timeNow E) token) eqn:Hv.
  - destruct (Valid_Some _ _ Hv) as [tok ->].
    unfold_callback. rewrite Hex. simpl. simpl in Hv.
    destruct err as [e|]; simpl; rewrite Hv; simpl;
      destruct (String.eqb (FormValue r "state") (oauthStateString a));
      simpl.
    all: repeat match goal with
         | |- context [httpGet ?e ?x] => destruct (httpGet e x); simpl
         | |- context [Unmarshal ?e ?x ?y] =>
             destruct (Unmarshal e x y) as [u [e'|]]; simpl
         | |- context [cookies ?q !! ?n] =>
             destruct (cookies q !! n) as [[v|]|]; simpl
         | |- context [secureEncode ?e ?n ?v] =>
             destruct (secureEncode e n v); simpl
         end.
    all: eexists; split; reflexivity.
  - unfold_callback. rewrite Hex. simpl.
    destruct err; simpl; rewrite Hv; simpl; eexists; split; reflexivity.
Qed.

(** X7. The callback does not consume the token: it leaves the one held in
    place, and the same [state] and [code] presented again, by any user
    agent, are treated as the first time (as many calls to [getUserInfo],
    to the profile endpoint and to [Save]). *)
Theorem callback_does_not_consume_token (E : Env) (a : Auth) (r : Request)
    (jar : gmap string CookieBlob) :
  let s1 := serve (handleGoogleCallback E) a r in
  let s2 := serve (handleGoogleCallback E) (auth s1) (withCookies jar r) in
  oauthStateString (auth s1) = oauthStateString a
  /\ calls isGetUserInfo (trace s2) = calls isGetUserInfo (trace s1)
  /\ calls isHTTPGet (trace s2) = calls isHTTPGet (trace s1)
  /\ calls isSave (trace s2) = calls isSave (trace s1).
Proof.
  intros s1 s2.
  assert (Ha : auth s1 = a)
    by (apply (preserves_handleGoogleCallback E r (freshState a))).
  destruct (callback_counts E a r) as (G1 & H1 & S1).
  destruct (callback_counts E (auth s1) (withCookies jar r)) as (G2 & H2 & S2).
  fold s1 in G1, H1, S1. fold s2 in G2, H2, S2.
  rewrite Ha in G2, H2, S2.
  change (FormValue (withCookies jar r)) with (FormValue r) in G2, H2, S2.
  rewrite Ha, G1, H1, S1, G2, H2, S2. auto.
Qed.

(** X8. With a valid token the callback saves one session, under the
    8-hour max-age: its five keys are overwritten ([authenticated] with
    true, [state] with the request's parameter) and every other key of
    the session the request carried is kept. *)
Theorem callback_keeps_other_session_keys (E : Env) (a : Auth)
    (r : Request) (tok : Token) (err : error) :
  Exchange E (googleOauthConfig a) (FormValue r "code") = (Some tok, err) ->
  Valid (timeNow E) (Some tok) = true ->
  exists saved,
    List.filter isSave (trace (serve (handleGoogleCallback E) a r))
    = [EvSave "cookie-name" saved {| MaxAge := 28800 |}]
    /\ saved !! "authenticated" = Some (VBool true)
    /\ saved !! "state" = Some (VString (FormValue r "state"))
    /\ (forall k, ~ In k callbackKeys ->
          saved !! k = loadedValues r "cookie-name" !! k).
Proof.
  intros Hex Hv.
  destruct (callback_valid_token E a r tok err Hex Hv) as (_ & _ & Hs & _).
  exists (callbackValues r (decoded E a r tok)).
  split; [exact Hs|].
  destruct (callbackValues_lookup r (decoded E a r tok))
    as (La & _ & _ & _ & Ls).
  split; [exact La|]. split; [exact Ls|].
  intros k Hk. unfold callbackValues.
  rewrite !lookup_insert_ne; [reflexivity|..];
    intros <-; apply Hk; unfold callbackKeys; simpl; auto 10.
Qed.

Lemma callback_keeps_other_session_keys_witness :
  Valid (timeNow Demo.env) (Some Demo.goodToken) = true
  /\ exists saved,
       List.filter isSave
         (trace (serve (handleGoogleCallback Demo.env) Demo.auth0
                   (Demo.callbackRequest Demo.issuedState "abc")))
       = [EvSave "cookie-name" saved {| MaxAge := 28800 |}].
Proof.
  assert (H : Valid (timeNow Demo.env) (Some Demo.goodToken) = true)
    by reflexivity.
  split; [exact H|].
  destruct (callback_keeps_other_session_keys Demo.env Demo.auth0
              (Demo.callbackRequest Demo.issuedState "abc")
              Demo.goodToken None eq_refl H) as (saved & Hs & _).
  exists saved. exact Hs.
Defined.

(** X9. A valid token is all it takes: when the exchange returns one
    without error and the cookie encodes, the cookies the callback leaves
    with the user agent take it through the gate, whatever the [state]
    parameter was and whatever became of the profile request. *)
Theorem valid_token_callback_opens_gate (E : Env) (a : Auth) (r : Request)
    (tok : Token) :
  Exchange E (googleOauthConfig a) (FormValue r "code") = (Some tok, None) ->
  Valid (timeNow E) (Some tok) = true ->
  (forall name v, secureEncode E name v = None) ->
  forall (h : Handler) (later : Request) (s : HState),
    let next :=
      withCookies
        (applyCookies (cookies r)
           (resp (serve (handleGoogleCallback E) a r))) later in
    IsAuthenticated h next s = h next (gatePassed s).
Proof.
  intros Hex Hv Henc h later s next.
  destruct (callback_valid_token E a r tok None Hex Hv) as (_ & _ & _ & Hr).
  rewrite Henc in Hr.
  rewrite IsAuthenticated_unfold.
  assert (Hl : loadedValues next "cookie-name"
               = callbackValues r (decoded E a r tok)).
  { unfold loadedValues. subst next. unfold withCookies. simpl. rewrite Hr.
    unfold applyCookies, storeCookie. simpl.
    rewrite lookup_insert_eq. reflexivity. }
  rewrite Hl.
  rewrite (proj1 (callbackValues_lookup r (decoded E a r tok))).
  reflexivity.
Qed.

Lemma valid_token_callback_opens_gate_witness :
  let a := auth (serve (login Demo.env) Demo.auth0 Demo.loginRequest) in
  let r := Demo.callbackRequest Demo.forgedState "abc" in
  let next :=
    withCookies
      (applyCookies (cookies r)
         (resp (serve (handleGoogleCallback Demo.env) a r)))
      Demo.loginRequest in
  Valid (timeNow Demo.env) (Some Demo.goodToken) = true
  /\ IsAuthenticated (logout Demo.env) next (freshState a)
     = logout Demo.env next (gatePassed (freshState a)).
Proof.
  cbv zeta.
  assert (H : Valid (timeNow Demo.env) (Some Demo.goodToken) = true)
    by reflexivity.
  split; [exact H|].
  exact (valid_token_callback_opens_gate Demo.env
           (auth (serve (login Demo.env) Demo.auth0 Demo.loginRequest))
           (Demo.callbackRequest Demo.forgedState "abc") Demo.goodToken
           eq_refl H (fun _ _ => eq_refl) (logout Demo.env)
           Demo.loginRequest
           (freshState
              (auth (serve (login Demo.env) Demo.auth0 Demo.loginRequest)))).
Defined.

(** X10. [getUserInfo] returns contents only together with a nil error,
    and then they are the body the profile endpoint sent for this token
    under a matching state; it sends its one request only when the
    [state] equals the held token, and writes neither to the response nor
    to [Auth]. *)
Theorem getUserInfo_contents_or_error (E : Env) (state : string)
    (tok : Token) (s : HState) :
  let res := fst (getUserInfo E state tok s) in
  let s' := snd (getUserInfo E state tok s) in
  match snd res with
  | Some _ => fst res = []
  | None =>
      state = oauthStateString (auth s)
      /\ httpGet E (userinfoURL tok) = BodyRead (fst res)
  end
  /\ calls isHTTPGet (trace s') =
       calls isHTTPGet (trace s)
       + (if String.eqb state (oauthStateString (auth s)) then 1 else 0)
  /\ resp s' = resp s
  /\ auth s' = auth s.
Proof.
  unfold getUserInfo, bind, emit, getAuth, ret, logPrintln, userinfoURL,
    calls.
  simpl.
  destruct (String.eqb_spec state (oauthStateString (auth s))) as [Heq|Hne];
    simpl.
  - destruct (httpGet E _) eqn:Hget; simpl;
      rewrite !List.filter_app, !length_app; simpl;
      repeat split; auto; lia.
  - rewrite !List.filter_app, !length_app; simpl. repeat split; auto; lia.
Qed.

(** ** Logout and the gate *)

Lemma applyCookies_one (jar : gmap string CookieBlob) (c : SetCookie) :
  (0 <= MaxAge (scOptions c))%Z ->
  applyCookies jar
    (writeRedirect "/" StatusTemporaryRedirect (writeCookie c emptyResponse))
  = <[scName c := Sealed (scValues c)]> jar.
Proof.
  intros H. unfold applyCookies, storeCookie. simpl.
  apply Z.ltb_ge in H. rewrite H. reflexivity.
Qed.

(** X11. A logout whose cookie is saved closes the gate: with the cookies
    the user agent then holds, every gated handler is answered 403 and
    not run (given that the store's max-age does not make the agent drop
    the cookie). *)
Theorem logout_closes_gate (E : Env) (a : Auth) (r : Request) :
  secureEncode E "cookie-name" (logoutValues r) = None ->
  (0 <= MaxAge (storeOptions (store a)))%Z ->
  forall (h : Handler) (later : Request) (s : HState),
    let next :=
      withCookies
        (applyCookies (cookies r) (resp (serve (logout E) a r))) later in
    IsAuthenticated h next s = (tt, gateRejected s).
Proof.
  intros Henc Hage h later s next.
  destruct (logout_serve E a r) as (_ & _ & Hr & _).
  rewrite Henc in Hr.
  rewrite IsAuthenticated_unfold.
  assert (Hl : loadedValues next "cookie-name" = logoutValues r).
  { unfold loadedValues. subst next. unfold withCookies. simpl.
    rewrite Hr, (applyCookies_one _ (logoutCookie a r)) by exact Hage.
    simpl. rewrite lookup_insert_eq. reflexivity. }
  rewrite Hl, logoutValues_authenticated. reflexivity.
Qed.

Lemma logout_closes_gate_witness :
  (0 <= MaxAge (storeOptions (store Demo.auth0)))%Z
  /\ IsAuthenticated (logout Demo.env)
       (withCookies
          (applyCookies (cookies Demo.userRequest)
             (resp (serve (logout Demo.env) Demo.auth0 Demo.userRequest)))
          Demo.loginRequest)
       (freshState Demo.auth0)
     = (tt, gateRejected (freshState Demo.auth0)).
Proof.
  assert (H : (0 <= MaxAge (storeOptions (store Demo.auth0)))%Z)
    by (vm_compute; discriminate).
  split; [exact H|].
  exact (logout_closes_gate Demo.env Demo.auth0 Demo.userRequest eq_refl H
           (logout Demo.env) Demo.loginRequest (freshState Demo.auth0)).
Defined.



(** The callback reads a request through its parameters and the session
    its cookie decodes to, and through nothing else. *)
Lemma callback_same_session (E : Env) (a : Auth) (r r' : Request) :
  form r' = form r ->
  loadedValues r' "cookie-name" = loadedValues r "cookie-name" ->
  resp (serve (handleGoogleCallback E) a r')
  = resp (serve (handleGoogleCallback E) a r)
  /\ List.filter isSave (trace (serve (handleGoogleCallback E) a r'))
     = List.filter isSave (trace (serve (handleGoogleCallback E) a r)).
Proof.
  intros Hf Hl.
  assert (HF : forall k, FormValue r' k = FormValue r k)
    by (intros k; unfold FormValue; rewrite Hf; reflexivity).
  destruct (Exchange E (googleOauthConfig a) (FormValue r "code"))
    as [token err] eqn:Hex.
  assert (Hex' : Exchange E (googleOauthConfig a) (FormValue r' "code")
                 = (token, err)) by (rewrite HF; exact Hex).
  destruct (Valid (timeNow E) token) eqn:Hv.
  - destruct (Valid_Some _ _ Hv) as [tok ->].
    destruct (callback_valid_token E a r tok err Hex Hv)
      as (_ & _ & Hs & Hr).
    destruct (callback_valid_token E a r' tok err Hex' Hv)
      as (_ & _ & Hs' & Hr').
    assert (Hd : decoded E a r' tok = decoded E a r tok)
      by (unfold decoded, fetched; rewrite HF; reflexivity).
    assert (Hcv : callbackValues r' (decoded E a r' tok)
                  = callbackValues r (decoded E a r tok))
      by (unfold callbackValues; rewrite Hd, Hl, HF; reflexivity).
    assert (Hcc : callbackCookie r' (decoded E a r' tok)
                  = callbackCookie r (decoded E a r tok))
      by (unfold callbackCookie; rewrite Hcv; reflexivity).
    rewrite Hr, Hr', Hs, Hs', Hcv, Hcc. split; reflexivity.
  - destruct (callback_invalid_token E a r token err Hex Hv)
      as (_ & _ & _ & _ & Hs & Hr).
    destruct (callback_invalid_token E a r' token err Hex' Hv)
      as (_ & _ & _ & _ & Hs' & Hr').
    unfold calls in Hs, Hs'.
    apply length_zero_iff_nil in Hs, Hs'.
    rewrite Hr, Hr', Hs, Hs'. split; reflexivity.
Qed.

(** X13. A cookie that does not decode counts as no cookie: [logout] and
    the callback answer and save as they do for a request without the
    cookie ([logout] saving a session that holds nothing but
    [authenticated = false]), and the gate rejects both. *)
Theorem undecodable_cookie_is_no_cookie (E : Env) (a : Auth) (r : Request) :
  let bad := withCookies (<["cookie-name" := Malformed]> (cookies r)) r in
  let none := withCookies (delete "cookie-name" (cookies r)) r in
  resp (serve (logout E) a bad) = resp (serve (logout E) a none)
  /\ List.filter isSave (trace (serve (logout E) a bad))
     = [EvSave "cookie-name" {["authenticated" := VBool false]}
          (storeOptions (store a))]
  /\ List.filter isSave (trace (serve (logout E) a none))
     = [EvSave "cookie-name" {["authenticated" := VBool false]}
          (storeOptions (store a))]
  /\ resp (serve (handleGoogleCallback E) a bad)
     = resp (serve (handleGoogleCallback E) a none)
  /\ List.filter isSave (trace (serve (handleGoogleCallback E) a bad))
     = List.filter isSave (trace (serve (handleGoogleCallback E) a none))
  /\ forall (h : Handler) (s : HState),
       IsAuthenticated h bad s = (tt, gateRejected s)
       /\ IsAuthenticated h none s = (tt, gateRejected s).
Proof.
  intros bad none.
  assert (Lb : loadedValues bad "cookie-name" = ∅)
    by (unfold loadedValues, bad, withCookies; simpl;
        rewrite lookup_insert_eq; reflexivity).
  assert (Ln : loadedValues none "cookie-name" = ∅)
    by (unfold loadedValues, none, withCookies; simpl;
        rewrite lookup_delete_eq; reflexivity).
  assert (Vb : logoutValues bad = {["authenticated" := VBool false]})
    by (unfold logoutValues; rewrite Lb; reflexivity).
  assert (Vn : logoutValues none = {["authenticated" := VBool false]})
    by (unfold logoutValues; rewrite Ln; reflexivity).
  destruct (logout_serve E a bad) as (_ & _ & Rb & Sb).
  destruct (logout_serve E a none) as (_ & _ & Rn & Sn).
  unfold logoutCookie in Rb, Rn. rewrite Vb in Rb, Sb. rewrite Vn in Rn, Sn.
  destruct (callback_same_session E a none bad eq_refl) as (Rc & Sc);
    [rewrite Lb, Ln; reflexivity|].
  clearbody bad none.
  split; [rewrite Rb, Rn; reflexivity|].
  split; [exact Sb|]. split; [exact Sn|].
  split; [exact Rc|]. split; [exact Sc|].
  intros h s. rewrite !IsAuthenticated_unfold, Lb, Ln, lookup_empty.
  split; reflexivity.
Qed.

(** X14. Logging out after a login keeps the identity in the cookie:
    after a callback with a valid token and then a logout, both saved,
    the user agent's session holds [authenticated = false] next to the
    [id], [email] and [fullname] the callback wrote and the [state] it
    echoed. *)
Theorem logout_after_callback_keeps_identity (E : Env) (a : Auth)
    (r later : Request) (tok : Token) :
  Exchange E (googleOauthConfig a) (FormValue r "code") = (Some tok, None) ->
  Valid (timeNow E) (Some tok) = true ->
  (forall name v, secureEncode E name v = None) ->
  (0 <= MaxAge (storeOptions (store a)))%Z ->
  let u := decoded E a r tok in
  let jar1 :=
    applyCookies (cookies r) (resp (serve (handleGoogleCallback E) a r)) in
  let out := withCookies jar1 later in
  let jar2 := applyCookies jar1 (resp (serve (logout E) a out)) in
  exists v,
    jar2 !! "cookie-name" = Some (Sealed v)
    /\ v !! "authenticated" = Some (VBool false)
    /\ v !! "id" = Some (VString (ID u))
    /\ v !! "email" = Some (VString (Email u))
    /\ v !! "fullname" = Some (VString (FullName u))
    /\ v !! "state" = Some (VString (FormValue r "state")).
Proof.
  intros Hex Hv Henc Hage u jar1 out jar2.
  destruct (callback_valid_token E a r tok None Hex Hv) as (_ & _ & _ & Hr).
  fold u in Hr. rewrite Henc in Hr.
  assert (J1 : jar1 = <["cookie-name" := Sealed (callbackValues r u)]>
                        (cookies r)).
  { subst jar1. rewrite Hr.
    apply (applyCookies_one _ (callbackCookie r u)). simpl. lia. }
  assert (Lo : loadedValues out "cookie-name" = callbackValues r u)
    by (unfold loadedValues, out, withCookies; simpl; rewrite J1;
        rewrite lookup_insert_eq; reflexivity).
  destruct (logout_serve E a out) as (_ & _ & Ho & _).
  rewrite Henc in Ho.
  assert (J2 : jar2 = <["cookie-name" := Sealed (logoutValues out)]> jar1).
  { subst jar2. rewrite Ho.
    apply (applyCookies_one _ (logoutCookie a out)). exact Hage. }
  exists (logoutValues out).
  split; [rewrite J2; apply lookup_insert_eq|].
  split; [apply logoutValues_authenticated|].
  destruct (callbackValues_lookup r u) as (_ & Li & Le & Lf & Ls).
  unfold logoutValues. rewrite Lo.
  rewrite !lookup_insert_ne by discriminate.
  auto.
Qed.

Lemma logout_after_callback_keeps_identity_witness :
  (0 <= MaxAge (storeOptions (store Demo.auth0)))%Z
  /\ exists v,
       applyCookies
         (applyCookies (cookies (Demo.callbackRequest "" "abc"))
            (resp (serve (handleGoogleCallback Demo.env) Demo.auth0
                     (Demo.callbackRequest "" "abc"))))
         (resp (serve (logout Demo.env) Demo.auth0
                  (withCookies
                     (applyCookies (cookies (Demo.callbackRequest "" "abc"))
                        (resp (serve (handleGoogleCallback Demo.env)
                                 Demo.auth0
                                 (Demo.callbackRequest "" "abc"))))
                     Demo.loginRequest)))
       !! "cookie-name" = Some (Sealed v)
       /\ v !! "authenticated" = Some (VBool false).
Proof.
  assert (H : (0 <= MaxAge (storeOptions (store Demo.auth0)))%Z)
    by (vm_compute; discriminate).
  split; [exact H|].
  destruct (logout_after_callback_keeps_identity Demo.env Demo.auth0
              (Demo.callbackRequest "" "abc") Demo.loginRequest
              Demo.goodToken eq_refl eq_refl (fun _ _ => eq_refl) H)
    as (v & Hj & Ha & _).
  exists v. split; assumption.
Defined.

(** X15. A callback that ends on a token that is not valid, after a
    failed exchange or not, sets no cookie: the user agent keeps the
    cookies it had, and an agent that was signed in still passes the
    gate. *)
Theorem rejected_callback_keeps_session (E : Env) (a : Auth) (r : Request)
    (token : option Token) (err : error) :
  Exchange E (googleOauthConfig a) (FormValue r "code") = (token, err) ->
  Valid (timeNow E) token = false ->
  let s' := serve (handleGoogleCallback E) a r in
  setCookies (resp s') = []
  /\ applyCookies (cookies r) (resp s') = cookies r
  /\ forall (h : Handler) (later : Request) (s : HState),
       let next := withCookies (applyCookies (cookies r) (resp s')) later in
       IsAuthenticated h next s
       = IsAuthenticated h (withCookies (cookies r) later) s.
Proof.
  intros Hex Hv s'.
  destruct (callback_invalid_token E a r token err Hex Hv)
    as (_ & _ & _ & _ & _ & Hr).
  fold s' in Hr. rewrite Hr.
  assert (Hj : applyCookies (cookies r)
                 (if isErr err then rootRedirect else emptyResponse)
               = cookies r) by (destruct err; reflexivity).
  split; [destruct err; reflexivity|].
  split; [exact Hj|].
  intros h later s next. subst next. rewrite Hj. reflexivity.
Qed.

Lemma rejected_callback_keeps_session_witness :
  Valid (timeNow Demo.envStaleToken) (Some Demo.staleToken) = false
  /\ applyCookies (cookies Demo.userRequest)
       (resp (serve (handleGoogleCallback Demo.envStaleToken) Demo.auth0
                (withCookies (cookies Demo.userRequest)
                   (Demo.callbackRequest Demo.issuedState "abc"))))
     = cookies Demo.userRequest.
Proof.
  assert (H : Valid (timeNow Demo.envStaleToken) (Some Demo.staleToken)
              = false) by reflexivity.
  split; [exact H|].
  exact (proj1 (proj2 (rejected_callback_keeps_session Demo.envStaleToken
                  Demo.auth0
                  (withCookies (cookies Demo.userRequest)
                     (Demo.callbackRequest Demo.issuedState "abc"))
                  (Some Demo.staleToken) None eq_refl H))).
Defined.
